(** * semester-planner: student plan parsing, positioning and the timetable grid

    A shallow embedding of
    - [src/lib/parsers/student-parser.ts]: [calculateStudentPositions] and
      [parseStudentData];
    - the [Timetable] component: [currentCourses], [handleProfessorSelect] and
      the [courseSchedule] grid.

    Conventions of the embedding.
    - A JavaScript array is a [list]; an array that can have empty slots is a
      [list (option A)], [None] being a slot that holds no element.  The
      iteration methods of the source ([forEach], [flatMap], [filter],
      [reduce]) skip such slots.
    - A [Map] or an object used as a dictionary is a [gmap].
    - Integral numbers (indices, semester numbers, credits, day indices) are
      [nat] or [Z]; pixel coordinates are rationals [Q], on which the source's
      arithmetic expressions are kept operation by operation.
    - The constants of [@/styles/visualization] and [@/config/visualization],
      the curriculum lookup [getCourseInfo], the JSON schedule data and the
      built-in [parseFloat] are parameters. *)

From Stdlib Require Import ZArith QArith Qminmax String Ascii List DecimalString.
From stdpp Require Import base option list gmap strings.
From stdpp Require Import sorting.

Open Scope string_scope.
Open Scope list_scope.

(** ** JavaScript helpers *)

Module JS.

(** [String(n)] and template interpolation of an integral number. *)
Definition string_of_Z (z : Z) : string := NilZero.string_of_int (Z.to_int z).
Definition string_of_nat (n : nat) : string := NilZero.string_of_uint (Nat.to_uint n).

(** [s.split(sep)] for a one-character separator: the pieces between the
    separators, in order; the empty string gives one empty piece. *)
Fixpoint split (sep : ascii) (s : string) : list string :=
  match s with
  | EmptyString => [EmptyString]
  | String c s' =>
      if Ascii.eqb c sep then EmptyString :: split sep s'
      else match split sep s' with
           | [] => [String c EmptyString]
           | p :: ps => String c p :: ps
           end
  end.

(** Truthiness of a string: [""] is falsy. *)
Definition truthy (s : string) : bool := negb (String.eqb s "").

(** [s || dflt] on strings. *)
Definition or_else (s dflt : string) : string := if truthy s then s else dflt.

(** [arr.forEach((x, i) => ...)] over an array with possibly empty slots:
    the callback runs on the slots that hold an element, with their index. *)
Fixpoint forEach_from {A St : Type} (f : St -> A -> nat -> St)
    (i : nat) (l : list (option A)) (st : St) : St :=
  match l with
  | [] => st
  | None :: l' => forEach_from f (S i) l' st
  | Some a :: l' => forEach_from f (S i) l' (f st a i)
  end.

Definition forEach {A St : Type} (f : St -> A -> nat -> St)
    (l : list (option A)) (st : St) : St := forEach_from f 0 l st.

(** [arr[i]] on an array with possibly empty slots: [None] is [undefined]. *)
Definition get {A : Type} (l : list (option A)) (i : nat) : option A :=
  mjoin (l !! i).

(** [arr[i] = v]: in range the slot is overwritten; past the end the array
    grows, the slots in between staying empty. *)
Definition set {A : Type} (l : list (option A)) (i : nat) (v : A) : list (option A) :=
  if (i <? length l)%nat then <[i := Some v]> l
  else l ++ replicate (i - length l) None ++ [Some v].

(** A JavaScript number as far as [parseFloat] and [>=] need it. *)
Inductive number : Type :=
| Num (q : Q)
| PosInfinity
| NegInfinity
| NaN.

(** [a >= b]; any comparison with [NaN] is false. *)
Definition geb (a b : number) : bool :=
  match a, b with
  | NaN, _ | _, NaN => false
  | PosInfinity, _ => true
  | _, NegInfinity => true
  | NegInfinity, _ => false
  | _, PosInfinity => false
  | Num x, Num y => Qle_bool y x
  end.

End JS.

(** ** Data model ([@/types/curriculum], [@/types/student-plan],
     [@/types/visualization]) *)

Inductive CourseType : Type := mandatory | optional.

Module Course.
Record t : Type := {
  id : string;
  name : string;
  credits : Z;
  phase : Z;
  type : CourseType;
  prerequisites : list string
}.
End Course.

Inductive CourseStatus : Type :=
| PENDING | IN_PROGRESS | COMPLETED | FAILED | EXEMPTED | PLANNED.

#[export] Instance CourseStatus_eq_dec : EqDecision CourseStatus.
Proof. solve_decision. Defined.

Module StudentCourse.
(** [{ ...courseInfo, course: courseInfo, status, grade, class }]: [spread]
    holds the fields copied from the curriculum course. *)
Record t : Type := {
  spread : Course.t;
  course : Course.t;
  status : CourseStatus;
  grade : option JS.number;
  class : option string
}.
Definition credits (c : t) : Z := Course.credits (spread c).
End StudentCourse.

Module StudentSemester.
Record t : Type := {
  number : Z;
  courses : list (option StudentCourse.t);
  totalCredits : Z
}.
End StudentSemester.

Module StudentPlan.
Record t : Type := {
  id : string;
  semesters : list (option StudentSemester.t)
}.
End StudentPlan.

Module StudentInfo.
Record t : Type := {
  id : string;
  studentId : string;
  name : string;
  currentPlan : option StudentPlan.t;
  plans : list StudentPlan.t;
  currentSemester : string;
  currentDegree : string;
  interestedDegrees : list string
}.
End StudentInfo.

Module CoursePosition.
(** [isGhost] is an optional property: the positions of real courses do not
    carry it. *)
Record t : Type := {
  courseId : string;
  x : Q;
  y : Q;
  width : Q;
  height : Q;
  isGhost : option bool
}.
End CoursePosition.

(** Constants of [@/styles/visualization]. *)
Module COURSE_BOX.
Record t : Type := {
  MIN_WIDTH : Q;
  WIDTH_FACTOR : Q;
  SPACING_Y : Q;
  HEIGHT : Q
}.
End COURSE_BOX.

Module PHASE.
Record t : Type := {
  MIN_WIDTH : Q;
  BOXES_PER_COLUMN : nat;
  TOTAL_SEMESTERS : nat
}.
End PHASE.

(** ** [student-parser.ts] *)

Module RawStudentData.
(** An entry [[courseCode, classCode, grade]]; the plan's entries carry no
    grade, and a class code or a grade can be missing. *)
Definition entry : Type := (string * option string * option string)%type.
Record t : Type := {
  id : string;
  studentId : string;
  name : string;
  currentSemester : Z;
  currentDegree : option string;
  interestedDegrees : option (list string);
  coursed : option (list (list entry));
  plan : option (list (list entry))
}.
End RawStudentData.

Module PositionsState.
(** The two accumulators of [calculateStudentPositions]. *)
Record t : Type := {
  positions : list CoursePosition.t;
  studentCourseMap : gmap string StudentCourse.t
}.
Definition empty : t := {| positions := []; studentCourseMap := ∅ |}.
End PositionsState.

Section StudentParser.

Variable COURSE_BOX : COURSE_BOX.t.
Variable PHASE : PHASE.t.
Variable getCourseInfo : string -> option Course.t.
Variable parseFloat : string -> JS.number.

Definition of_index (i : nat) : Q := inject_Z (Z.of_nat i).

Section Positions.

Variable phaseWidth : Q.

Definition boxWidth : Q :=
  Qmax (COURSE_BOX.MIN_WIDTH COURSE_BOX)
       (phaseWidth * COURSE_BOX.WIDTH_FACTOR COURSE_BOX).

Definition xOffset : Q := (phaseWidth - boxWidth) / 2.

(** The position pushed for the course at [courseIndex]. *)
Definition coursePosition (semesterIndex courseIndex : nat)
    (course : StudentCourse.t) : CoursePosition.t :=
  {| CoursePosition.courseId := Course.id (StudentCourse.course course);
     CoursePosition.x := of_index semesterIndex * phaseWidth + xOffset;
     CoursePosition.y := of_index courseIndex * COURSE_BOX.SPACING_Y COURSE_BOX
                         + COURSE_BOX.SPACING_Y COURSE_BOX;
     CoursePosition.width := boxWidth;
     CoursePosition.height := COURSE_BOX.HEIGHT COURSE_BOX;
     CoursePosition.isGhost := None |}.

(** The ghost box pushed for the empty slot [i]. *)
Definition ghostPosition (semesterIndex : nat)
    (semester : StudentSemester.t) (i : nat) : CoursePosition.t :=
  {| CoursePosition.courseId :=
       "ghost-" +:+ JS.string_of_Z (StudentSemester.number semester)
                +:+ "-" +:+ JS.string_of_nat i;
     CoursePosition.x := of_index semesterIndex * phaseWidth + xOffset;
     CoursePosition.y := of_index i * COURSE_BOX.SPACING_Y COURSE_BOX
                         + COURSE_BOX.SPACING_Y COURSE_BOX;
     CoursePosition.width := boxWidth;
     CoursePosition.height := COURSE_BOX.HEIGHT COURSE_BOX;
     CoursePosition.isGhost := Some true |}.

(** Body of [semester.courses.forEach] past its guard: a slot for which
    [!course || !course.course] holds is a [None] slot of the course list,
    for which nothing is pushed and which still counts in the indices and in
    [courses.length]. *)
Definition addCourse (semesterIndex : nat) (st : PositionsState.t)
    (course : StudentCourse.t) (courseIndex : nat) : PositionsState.t :=
  {| PositionsState.positions :=
       PositionsState.positions st
         ++ [coursePosition semesterIndex courseIndex course];
     PositionsState.studentCourseMap :=
       <[Course.id (StudentCourse.course course) := course]>
         (PositionsState.studentCourseMap st) |}.

(** One turn of
    [for (let i = semester.courses.length; i < PHASE.BOXES_PER_COLUMN; i++)]. *)
Definition addGhost (semesterIndex : nat) (semester : StudentSemester.t)
    (st : PositionsState.t) (i : nat) : PositionsState.t :=
  {| PositionsState.positions :=
       PositionsState.positions st ++ [ghostPosition semesterIndex semester i];
     PositionsState.studentCourseMap := PositionsState.studentCourseMap st |}.

(** Body of [studentPlan.semesters.forEach]. *)
Definition addSemester (st : PositionsState.t)
    (semester : StudentSemester.t) (semesterIndex : nat) : PositionsState.t :=
  let k := length (StudentSemester.courses semester) in
  let st1 := JS.forEach (addCourse semesterIndex)
                        (StudentSemester.courses semester) st in
  foldl (addGhost semesterIndex semester) st1
        (seq k (PHASE.BOXES_PER_COLUMN PHASE - k)).

Definition calculateStudentPositions (studentPlan : StudentPlan.t)
    : PositionsState.t :=
  JS.forEach addSemester (StudentPlan.semesters studentPlan)
             PositionsState.empty.

(** **** Vocabulary for the statements about [calculateStudentPositions] *)

(** The accumulators once the first [n] semester slots of the plan were
    processed. *)
Definition stateAfter (studentPlan : StudentPlan.t) (n : nat) : PositionsState.t :=
  JS.forEach addSemester (take n (StudentPlan.semesters studentPlan))
             PositionsState.empty.

(** The positions of the courses of a course list, each with its index. *)
Fixpoint coursePositions_from (semesterIndex j : nat)
    (courses : list (option StudentCourse.t)) : list CoursePosition.t :=
  match courses with
  | [] => []
  | None :: courses' => coursePositions_from semesterIndex (S j) courses'
  | Some c :: courses' =>
      coursePosition semesterIndex j c
        :: coursePositions_from semesterIndex (S j) courses'
  end.

Definition coursePositions (semesterIndex : nat) (semester : StudentSemester.t)
    : list CoursePosition.t :=
  coursePositions_from semesterIndex 0 (StudentSemester.courses semester).

(** The ghost boxes of a semester: one per slot from the number of its
    courses up to the capacity. *)
Definition ghostPositions (semesterIndex : nat) (semester : StudentSemester.t)
    : list CoursePosition.t :=
  let k := length (StudentSemester.courses semester) in
  ghostPosition semesterIndex semester
    <$> seq k (PHASE.BOXES_PER_COLUMN PHASE - k).

End Positions.

(** [calculateStudentPositions(studentPlan)], the width defaulting to
    [PHASE.MIN_WIDTH]. *)
Definition calculateStudentPositions_default (studentPlan : StudentPlan.t)
    : PositionsState.t :=
  calculateStudentPositions (PHASE.MIN_WIDTH PHASE) studentPlan.

(** The semesters a plan holds, and its courses in processing order. *)
Definition planSemesters (studentPlan : StudentPlan.t) : list StudentSemester.t :=
  omap id (StudentPlan.semesters studentPlan).

Definition coursesOf (semester : StudentSemester.t) : list StudentCourse.t :=
  omap id (StudentSemester.courses semester).

Definition realCourses (studentPlan : StudentPlan.t) : list StudentCourse.t :=
  flat_map coursesOf (planSemesters studentPlan).

(** Every slot of every course list holds a [StudentCourse] with its course,
    as the type [StudentCourse[]] promises. *)
Definition denseCourses (studentPlan : StudentPlan.t) : Prop :=
  Forall (fun semester => Forall is_Some (StudentSemester.courses semester))
         (planSemesters studentPlan).

(** The key of a course in [courseMap]. *)
Definition courseKey (course : StudentCourse.t) : string :=
  Course.id (StudentCourse.course course).

(** *** [parseStudentData] *)

(** [courses.reduce((sum, course) => sum + course.credits, 0)]. *)
Definition sumCredits (courses : list (option StudentCourse.t)) : Z :=
  foldl (fun sum course => (sum + StudentCourse.credits course)%Z) 0%Z
        (omap id courses).

(** [classCode || undefined]. *)
Definition classOf (classCode : option string) : option string :=
  match classCode with
  | Some c => if JS.truthy c then Some c else None
  | None => None
  end.

(** [grade ? parseFloat(grade) : 0]. *)
Definition gradeValueOf (grade : option string) : JS.number :=
  match grade with
  | Some g => if JS.truthy g then parseFloat g else JS.Num 0
  | None => JS.Num 0
  end.

(** [gradeValue >= 6 ? CourseStatus.COMPLETED : CourseStatus.FAILED]. *)
Definition statusOfGrade (gradeValue : JS.number) : CourseStatus :=
  if JS.geb gradeValue (JS.Num 6) then COMPLETED else FAILED.

(** Body of [semesterCourses.forEach] over the coursed entries: nothing is
    pushed for a code the curriculum does not know. *)
Definition pushCoursed (courses : list StudentCourse.t)
    (e : RawStudentData.entry) : list StudentCourse.t :=
  let '(courseCode, classCode, grade) := e in
  match getCourseInfo courseCode with
  | None => courses
  | Some courseInfo =>
      let gradeValue := gradeValueOf grade in
      let status := statusOfGrade gradeValue in
      courses ++ [ {| StudentCourse.spread := courseInfo;
                      StudentCourse.course := courseInfo;
                      StudentCourse.status := status;
                      StudentCourse.grade := Some gradeValue;
                      StudentCourse.class := classOf classCode |} ]
  end.

(** Body of [jsonData.coursed.forEach]. *)
Definition addCoursedSemester (semesters : list (option StudentSemester.t))
    (semesterCourses : list RawStudentData.entry) (semesterIndex : nat)
    : list (option StudentSemester.t) :=
  let semesterNumber := S semesterIndex in
  let courses := foldl pushCoursed [] semesterCourses in
  if (0 <? length courses)%nat then
    JS.set semesters (semesterNumber - 1)
      {| StudentSemester.number := Z.of_nat semesterNumber;
         StudentSemester.courses := Some <$> courses;
         StudentSemester.totalCredits := sumCredits (Some <$> courses) |}
  else semesters.

(** One turn of [for (let i = 0; i < PHASE.TOTAL_SEMESTERS; i++)]. *)
Definition fillGap (semesters : list (option StudentSemester.t)) (i : nat)
    : list (option StudentSemester.t) :=
  match JS.get semesters i with
  | Some _ => semesters
  | None =>
      JS.set semesters i
        {| StudentSemester.number := Z.of_nat i + 1;
           StudentSemester.courses := [];
           StudentSemester.totalCredits := 0 |}
  end.

(** Body of [semesterCourses.forEach] over the plan entries. *)
Definition pushPlanned (status : CourseStatus)
    (courses : list (option StudentCourse.t)) (e : RawStudentData.entry)
    : list (option StudentCourse.t) :=
  let '(courseCode, classCode, _) := e in
  match getCourseInfo courseCode with
  | None => courses
  | Some courseInfo =>
      courses ++ [ Some {| StudentCourse.spread := courseInfo;
                           StudentCourse.course := courseInfo;
                           StudentCourse.status := status;
                           StudentCourse.grade := None;
                           StudentCourse.class := classOf classCode |} ]
  end.

(** [semesters[semesterNumber - 1]] for an integral index: a negative index
    names no slot. *)
Definition getZ {A : Type} (l : list (option A)) (z : Z) : option A :=
  if (z <? 0)%Z then None else JS.get l (Z.to_nat z).

(** Body of [jsonData.plan.forEach].  The result is [None] when the source
    raises a [TypeError]: [targetSemester] is [undefined] and its [courses]
    are read. *)
Definition addPlanSemester (currentSemesterNum : Z)
    (semesters : option (list (option StudentSemester.t)))
    (semesterCourses : list RawStudentData.entry) (planIndex : nat)
    : option (list (option StudentSemester.t)) :=
  sems ← semesters;
  let semesterNumber := (currentSemesterNum + Z.of_nat planIndex)%Z in
  if (Z.of_nat (PHASE.TOTAL_SEMESTERS PHASE) <? semesterNumber)%Z then Some sems
  else
    targetSemester ← getZ sems (semesterNumber - 1);
    let status := if (semesterNumber =? currentSemesterNum)%Z
                  then IN_PROGRESS else PLANNED in
    let courses := foldl (pushPlanned status)
                         (StudentSemester.courses targetSemester)
                         semesterCourses in
    Some (<[Z.to_nat (semesterNumber - 1) :=
              Some {| StudentSemester.number := StudentSemester.number targetSemester;
                      StudentSemester.courses := courses;
                      StudentSemester.totalCredits := sumCredits courses |}]> sems).

(** The [semesters] array after the three passes; [None] when the source
    raises. *)
Definition parseSemesters (jsonData : RawStudentData.t)
    : option (list (option StudentSemester.t)) :=
  let semesters0 : list (option StudentSemester.t) := [] in
  let semesters1 :=
    match RawStudentData.coursed jsonData with
    | Some coursed => JS.forEach addCoursedSemester (Some <$> coursed) semesters0
    | None => semesters0
    end in
  let semesters2 :=
    foldl fillGap semesters1 (seq 0 (PHASE.TOTAL_SEMESTERS PHASE)) in
  let currentSemesterNum := RawStudentData.currentSemester jsonData in
  match RawStudentData.plan jsonData with
  | Some plan =>
      JS.forEach (addPlanSemester currentSemesterNum) (Some <$> plan)
                 (Some semesters2)
  | None => Some semesters2
  end.

Definition parseStudentData (jsonData : RawStudentData.t)
    : option StudentInfo.t :=
  semesters ← parseSemesters jsonData;
  let plan := {| StudentPlan.id := "1"; StudentPlan.semesters := semesters |} in
  Some {| StudentInfo.id := JS.or_else (RawStudentData.id jsonData) "1";
          StudentInfo.studentId := JS.or_else (RawStudentData.studentId jsonData) "1";
          StudentInfo.name := RawStudentData.name jsonData;
          StudentInfo.currentPlan := Some plan;
          StudentInfo.plans := [plan];
          StudentInfo.currentSemester :=
            JS.string_of_Z (RawStudentData.currentSemester jsonData);
          StudentInfo.currentDegree :=
            match RawStudentData.currentDegree jsonData with
            | Some d => JS.or_else d "208"
            | None => "208"
            end;
          StudentInfo.interestedDegrees :=
            default [] (RawStudentData.interestedDegrees jsonData) |}.

(** **** Vocabulary for the statements about [parseStudentData] *)

(** The course pushed for a coursed entry, if its code resolves. *)
Definition coursedCourse (e : RawStudentData.entry) : option StudentCourse.t :=
  last (pushCoursed [] e).

(** The semester stored for the coursed entries at [semesterIndex], if any of
    them resolves. *)
Definition coursedSemester (semesterIndex : nat)
    (semesterCourses : list RawStudentData.entry) : option StudentSemester.t :=
  JS.get (addCoursedSemester [] semesterCourses semesterIndex) semesterIndex.

(** The semester that fills the gap at index [i]. *)
Definition emptySemester (i : nat) : StudentSemester.t :=
  {| StudentSemester.number := Z.of_nat i + 1;
     StudentSemester.courses := [];
     StudentSemester.totalCredits := 0 |}.

(** [semesters'] has the slots of [semesters], each semester keeping its
    number and its courses and possibly gaining courses at the end. *)
Definition extends (semesters semesters' : list (option StudentSemester.t)) : Prop :=
  Forall2 (fun s s' =>
             match s, s' with
             | None, None => True
             | Some a, Some b =>
                 StudentSemester.number b = StudentSemester.number a
                 /\ StudentSemester.courses a `prefix_of` StudentSemester.courses b
             | _, _ => False
             end) semesters semesters'.

End StudentParser.

(** ** The [Timetable] component *)

Module TimeSlot.
Record t : Type := { id : string; label : string }.
End TimeSlot.

(** Constants of [@/config/visualization]. *)
Module TIMETABLE.
Record t : Type := {
  TIME_SLOTS : list TimeSlot.t;
  DAYS : list string;
  DAYS_MAP : gmap string Z
}.
End TIMETABLE.

Module ScheduleEntry.
Record t : Type := { day : Z; startTime : string }.
End ScheduleEntry.

Module ProfessorOverride.
Record t : Type := {
  courseId : string;
  professorId : string;
  schedule : list ScheduleEntry.t
}.
End ProfessorOverride.

Module ProfessorData.
(** An element of [scheduleData.professors[courseId]]. *)
Record t : Type := { professorId : string; schedule : string }.
End ProfessorData.

Module ScheduleData.
(** [@/data/schedule.json]: [courseTimes] holds the top-level keys whose
    value is an array of [{day, startTime}]; [professors] is the optional
    [professors] object. *)
Record t : Type := {
  courseTimes : gmap string (list ScheduleEntry.t);
  professors : option (gmap string (list ProfessorData.t))
}.
End ScheduleData.

(** The grid [schedule[slotId][day]]: rows by slot id, cells by day; a cell
    can hold [undefined] ([None]). *)
Abbreviation Grid := (gmap string (gmap Z (option StudentCourse.t))).

Section Timetable.

Variable TIMETABLE : TIMETABLE.t.
Variable scheduleData : ScheduleData.t.

(** [currentCourses]: the in-progress courses of the current plan, flattened
    in plan order.  Empty slots are skipped by [flatMap] and [filter]; on a
    [null] element [course.status] would raise, which the declared type
    [StudentCourse[]] excludes. *)
Definition currentCourses (studentInfo : StudentInfo.t) : list StudentCourse.t :=
  match StudentInfo.currentPlan studentInfo with
  | None => []
  | Some currentPlan =>
      filter (fun course => StudentCourse.status course = IN_PROGRESS)
        (omap id
           (flat_map StudentSemester.courses
              (omap id (StudentPlan.semesters currentPlan))))
  end.

(** *** [handleProfessorSelect] *)

(** Body of [daysList.forEach]. *)
Definition pushDay (startTime : string) (scheduleEntries : list ScheduleEntry.t)
    (dayName : string) : list ScheduleEntry.t :=
  match TIMETABLE.DAYS_MAP TIMETABLE !! dayName with
  | None => scheduleEntries
  | Some dayIndex =>
      if negb (JS.truthy startTime) then scheduleEntries
      else scheduleEntries
             ++ [ {| ScheduleEntry.day := dayIndex;
                     ScheduleEntry.startTime := startTime |} ]
  end.

(** The schedule entries parsed from a text such as
    ["Terça/Quinta 13:30-15:10"]. *)
Definition parseSchedule (scheduleText : string) : list ScheduleEntry.t :=
  if JS.truthy scheduleText then
    let parts := JS.split " " scheduleText in
    if (2 <=? length parts)%nat then
      let daysPart := nth 0 parts "" in
      let timePart := nth 1 parts "" in
      let daysList := JS.split "/" daysPart in
      let startTime := nth 0 (JS.split "-" timePart) "" in
      foldl (pushDay startTime) [] daysList
    else []
  else [].

(** [scheduleData.professors?.[courseId]?.find(p => p.professorId === professorId)]. *)
Definition findProfessor (courseId professorId : string) : option ProfessorData.t :=
  profs ← ScheduleData.professors scheduleData;
  l ← profs !! courseId;
  find (fun p => bool_decide (ProfessorData.professorId p = professorId)) l.

(** The new [professorOverrides] state; unchanged when the professor is not
    found. *)
Definition handleProfessorSelect (professorOverrides : list ProfessorOverride.t)
    (course : StudentCourse.t) (professorId : string)
    : list ProfessorOverride.t :=
  let courseId := Course.id (StudentCourse.course course) in
  match findProfessor courseId professorId with
  | None => professorOverrides
  | Some professorData =>
      let scheduleEntries := parseSchedule (ProfessorData.schedule professorData) in
      filter (fun o => ProfessorOverride.courseId o <> courseId) professorOverrides
        ++ [ {| ProfessorOverride.courseId := courseId;
                ProfessorOverride.professorId := professorId;
                ProfessorOverride.schedule := scheduleEntries |} ]
  end.

(** *** [courseSchedule] *)

(** [courseSchedule[slotId]?.[dayIndex]], as the rendering reads it. *)
Definition cell (schedule : Grid) (slotId : string) (day : Z)
    : option StudentCourse.t :=
  row ← schedule !! slotId; mjoin (row !! day).

(** [schedule[slotId][day] = v].  Only used with the id of a time slot, whose
    row exists since the initialisation. *)
Definition setCell (schedule : Grid) (slotId : string) (day : Z)
    (v : option StudentCourse.t) : Grid :=
  alter (fun row => <[day := v]> row) slotId schedule.

Definition initSchedule : Grid :=
  foldl (fun schedule slot => <[TimeSlot.id slot := ∅]> schedule) ∅
        (TIMETABLE.TIME_SLOTS TIMETABLE).

Definition clearSchedule (schedule : Grid) : Grid :=
  foldl (fun schedule slot =>
           foldl (fun schedule dayIndex =>
                    setCell schedule (TimeSlot.id slot) (Z.of_nat dayIndex) None)
                 schedule (seq 0 (length (TIMETABLE.DAYS TIMETABLE))))
        schedule (TIMETABLE.TIME_SLOTS TIMETABLE).

(** [TIMETABLE.TIME_SLOTS.findIndex(slot => slot.id === startTime)];
    [None] is [-1]. *)
Fixpoint findIndex_from (startTime : string) (i : nat) (slots : list TimeSlot.t)
    : option nat :=
  match slots with
  | [] => None
  | slot :: slots' =>
      if String.eqb (TimeSlot.id slot) startTime then Some i
      else findIndex_from startTime (S i) slots'
  end.

Definition findIndex (startTime : string) : option nat :=
  findIndex_from startTime 0 (TIMETABLE.TIME_SLOTS TIMETABLE).

(** Body of [courseTimes.forEach] and of [override.schedule.forEach]. *)
Definition applyEntry (course : StudentCourse.t) (schedule : Grid)
    (entry : ScheduleEntry.t) : Grid :=
  let day := ScheduleEntry.day entry in
  let startTime := ScheduleEntry.startTime entry in
  match findIndex startTime with
  | None => schedule
  | Some startSlotIndex =>
      let schedule1 := setCell schedule startTime day (Some course) in
      if (startSlotIndex + 1 <? length (TIMETABLE.TIME_SLOTS TIMETABLE))%nat then
        match TIMETABLE.TIME_SLOTS TIMETABLE !! (startSlotIndex + 1)%nat with
        | Some nextSlot => setCell schedule1 (TimeSlot.id nextSlot) day (Some course)
        | None => schedule1
        end
      else schedule1
  end.

Section CourseSchedule.

Variable currentCourses_ : list StudentCourse.t.
Variable professorOverrides : list ProfessorOverride.t.

Definition overriddenCourses : gset string :=
  list_to_set (ProfessorOverride.courseId <$> professorOverrides).

(** Body of the first [currentCourses.forEach]. *)
Definition applyDefault (schedule : Grid) (course : StudentCourse.t) : Grid :=
  let courseId := Course.id (StudentCourse.course course) in
  if bool_decide (courseId ∈ overriddenCourses) then schedule
  else match ScheduleData.courseTimes scheduleData !! courseId with
       | None => schedule
       | Some courseTimes => foldl (applyEntry course) schedule courseTimes
       end.

(** Body of [professorOverrides.forEach]. *)
Definition applyOverride (schedule : Grid) (override : ProfessorOverride.t) : Grid :=
  match find (fun c => bool_decide (Course.id (StudentCourse.course c)
                                    = ProfessorOverride.courseId override))
             currentCourses_ with
  | None => schedule
  | Some course =>
      foldl (applyEntry course) schedule (ProfessorOverride.schedule override)
  end.

Definition courseSchedule : Grid :=
  let schedule0 := clearSchedule initSchedule in
  let schedule1 := foldl applyDefault schedule0 currentCourses_ in
  foldl applyOverride schedule1 professorOverrides.

(** **** Vocabulary for the statements about [courseSchedule] *)

(** The writes of the first loop, in processing order: each course without
    an override with each of its default times. *)
Definition defaultWrites : list (StudentCourse.t * ScheduleEntry.t) :=
  flat_map
    (fun course =>
       let courseId := Course.id (StudentCourse.course course) in
       if bool_decide (courseId ∈ overriddenCourses) then []
       else match ScheduleData.courseTimes scheduleData !! courseId with
            | None => []
            | Some courseTimes => pair course <$> courseTimes
            end)
    currentCourses_.

(** The writes of the second loop: each override whose course is found, with
    each of its entries. *)
Definition overrideWrites : list (StudentCourse.t * ScheduleEntry.t) :=
  flat_map
    (fun override =>
       match find (fun c => bool_decide (Course.id (StudentCourse.course c)
                                         = ProfessorOverride.courseId override))
                  currentCourses_ with
       | None => []
       | Some course => pair course <$> ProfessorOverride.schedule override
       end)
    professorOverrides.

Definition scheduleWrites : list (StudentCourse.t * ScheduleEntry.t) :=
  defaultWrites ++ overrideWrites.

End CourseSchedule.

(** The grid after a list of writes. *)
Definition applyWrites (schedule : Grid)
    (writes : list (StudentCourse.t * ScheduleEntry.t)) : Grid :=
  foldl (fun schedule w => applyEntry w.1 schedule w.2) schedule writes.

(** The cells an entry claims: on its day, the slot with its start time and
    the slot that follows it in [TIME_SLOTS], when the start time is the id of
    a slot. *)
Definition covers (entry : ScheduleEntry.t) (slotId : string) (day : Z) : bool :=
  match findIndex (ScheduleEntry.startTime entry) with
  | None => false
  | Some startSlotIndex =>
      bool_decide (day = ScheduleEntry.day entry)
      && (bool_decide (slotId = ScheduleEntry.startTime entry)
          || bool_decide (TimeSlot.id <$> TIMETABLE.TIME_SLOTS TIMETABLE
                                           !! (startSlotIndex + 1)%nat
                          = Some slotId))
  end.

(** Every time slot has its row. *)
Definition rowsPresent (schedule : Grid) : Prop :=
  forall slot, slot ∈ TIMETABLE.TIME_SLOTS TIMETABLE ->
    is_Some (schedule !! TimeSlot.id slot).

End Timetable.


(** ** More of the [Timetable] component: the colours of the courses *)

Section TimetableColors.

Variable COURSE_COLORS : list string.
Variable currentCourses_ : list StudentCourse.t.

(** [index % COURSE_COLORS.length]; [None] is [NaN], for an empty palette. *)
Definition colorIndexOf (index : nat) : option nat :=
  if (length COURSE_COLORS =? 0)%nat then None
  else Some (index mod length COURSE_COLORS).

(** Body of [currentCourses.forEach] in [courseColorMap]; the value stored is
    [undefined] ([None]) when [COURSE_COLORS[colorIndex]] is. *)
Definition setColor (colorMap : gmap string (option string))
    (course : StudentCourse.t) (index : nat) : gmap string (option string) :=
  let colorIndex := colorIndexOf index in
  <[Course.id (StudentCourse.course course) :=
      colorIndex ≫= fun i => COURSE_COLORS !! i]> colorMap.

Definition courseColorMap : gmap string (option string) :=
  JS.forEach setColor (Some <$> currentCourses_) ∅.

(** [courseColorMap.get(courseId) || "border-gray-300 bg-gray-50"]. *)
Definition getCourseColor (courseId : string) : string :=
  match courseColorMap !! courseId with
  | Some (Some color) => JS.or_else color "border-gray-300 bg-gray-50"
  | _ => "border-gray-300 bg-gray-50"
  end.

End TimetableColors.

(** ** The home page *)

Module DegreeProgram.
Record t : Type := { id : string; name : string }.
End DegreeProgram.

(** [getDegreeName]: the name of the first program with that id, the id
    itself when there is none or its name is empty. *)
Definition getDegreeName (degreePrograms : list DegreeProgram.t)
    (degreeId : string) : string :=
  let program :=
    find (fun p => bool_decide (DegreeProgram.id p = degreeId)) degreePrograms in
  match program with
  | Some program => JS.or_else (DegreeProgram.name program) degreeId
  | None => degreeId
  end.

(** The [studentCourses] map handed to the grid visualizer:
    [new Map(studentInfo.currentPlan?.semesters.flatMap(semester =>
       semester.courses.map(course => [course.course.id, course])) || [])]. *)
Definition studentCourses (studentInfo : StudentInfo.t)
    : gmap string StudentCourse.t :=
  let entries :=
    match StudentInfo.currentPlan studentInfo with
    | Some currentPlan =>
        flat_map
          (fun semester =>
             (fun course => (Course.id (StudentCourse.course course), course))
               <$> omap id (StudentSemester.courses semester))
          (omap id (StudentPlan.semesters currentPlan))
    | None => []
    end in
  foldl (fun m entry => <[entry.1 := entry.2]> m) ∅ entries.

(** ** The registration form *)

Module RegisterFormData.
Record t : Type := {
  username : string;
  password : string;
  name : string;
  studentId : string;
  currentDegree : string;
  interestedDegrees : list string
}.
End RegisterFormData.

(** [handleInterestedDegreeChange]: the form data after the checkbox of
    [degree] was set to [checked]. *)
Definition handleInterestedDegreeChange (prev : RegisterFormData.t)
    (degree : string) (checked : bool) : RegisterFormData.t :=
  {| RegisterFormData.username := RegisterFormData.username prev;
     RegisterFormData.password := RegisterFormData.password prev;
     RegisterFormData.name := RegisterFormData.name prev;
     RegisterFormData.studentId := RegisterFormData.studentId prev;
     RegisterFormData.currentDegree := RegisterFormData.currentDegree prev;
     RegisterFormData.interestedDegrees :=
       if checked then RegisterFormData.interestedDegrees prev ++ [degree]
       else filter (fun d => d <> degree)
                   (RegisterFormData.interestedDegrees prev) |}.

(** The student info built by [handleSubmit] before it is encrypted. *)
Definition registrationInfo (formData : RegisterFormData.t) : StudentInfo.t :=
  {| StudentInfo.id := RegisterFormData.username formData;
     StudentInfo.name := RegisterFormData.name formData;
     StudentInfo.studentId := RegisterFormData.studentId formData;
     StudentInfo.currentDegree := RegisterFormData.currentDegree formData;
     StudentInfo.interestedDegrees := RegisterFormData.interestedDegrees formData;
     StudentInfo.currentSemester := "1";
     StudentInfo.plans := [];
     StudentInfo.currentPlan :=
       Some {| StudentPlan.id := "default-plan";
               StudentPlan.semesters :=
                 [ Some {| StudentSemester.number := 1;
                           StudentSemester.courses := [];
                           StudentSemester.totalCredits := 0 |} ] |} |}.

(** ** [curriculum-visualizer.tsx] *)

Module Phase.
Record t : Type := { number : Z; courses : list Course.t }.
End Phase.

Module Curriculum.
Record t : Type := {
  name : string;
  totalPhases : Z;
  phases : list Phase.t
}.
End Curriculum.

(** [curriculum.totalPhases * 200]. *)
Definition totalWidth (curriculum : Curriculum.t) : Z :=
  (Curriculum.totalPhases curriculum * 200)%Z.

(** The [left] offsets of the divider lines:
    [Array.from({ length: curriculum.totalPhases - 1 }, (_, i) => (i + 1) * 200)];
    a negative length gives no element. *)
Definition dividers (curriculum : Curriculum.t) : list Z :=
  (fun i => ((Z.of_nat i + 1) * 200)%Z)
    <$> seq 0 (Z.to_nat (Curriculum.totalPhases curriculum - 1)).

(** The course boxes, [None] where the source returns [null]: a course is
    drawn at the first position that carries its id. *)
Definition courseBoxes (curriculum : Curriculum.t)
    (positions : list CoursePosition.t)
    : list (option (Course.t * CoursePosition.t)) :=
  flat_map
    (fun phase =>
       (fun course =>
          let position :=
            find (fun p => bool_decide (CoursePosition.courseId p = Course.id course))
                 positions in
          match position with
          | None => None
          | Some position => Some (course, position)
          end)
         <$> Phase.courses phase)
    (Curriculum.phases curriculum).

(** ** The course box *)

Inductive Icon : Type := Check | Clock | AlertTriangle.

(** [getStatusColor]. *)
Definition getStatusColor (isEmpty : bool) (studentCourse : option StudentCourse.t)
    : string :=
  if isEmpty then
    (if isEmpty then "border-gray-400 border-dashed bg-white/5"
     else "border-gray-300 bg-gray-80/30")
  else
    match studentCourse with
    | None => "border-gray-500 bg-gray-100"
    | Some studentCourse =>
        match StudentCourse.status studentCourse with
        | COMPLETED => "border-green-500 bg-green-50"
        | IN_PROGRESS => "border-blue-500 bg-blue-50"
        | FAILED => "border-red-500 bg-red-50"
        | PLANNED => "border-purple-500 bg-purple-50"
        | EXEMPTED => "border-yellow-500 bg-yellow-50"
        | _ => "border-gray-500 bg-gray-100"
        end
    end.

(** [getStatusIcon]: the icon and its class, [None] for [null]. *)
Definition getStatusIcon (isEmpty : bool) (studentCourse : option StudentCourse.t)
    : option (Icon * string) :=
  if isEmpty then None
  else
    match studentCourse with
    | None => None
    | Some studentCourse =>
        match StudentCourse.status studentCourse with
        | COMPLETED => Some (Check, "w-3 h-3 text-green-600")
        | IN_PROGRESS => Some (Clock, "w-3 h-3 text-blue-600")
        | FAILED => Some (AlertTriangle, "w-3 h-3 text-red-600")
        | PLANNED => Some (Clock, "w-3 h-3 text-purple-600")
        | EXEMPTED => Some (Check, "w-3 h-3 text-yellow-600")
        | _ => None
        end
    end.

(** ** Vocabulary for the further statements about [parseStudentData] *)

Section ParseVocabulary.

Variable PHASE : PHASE.t.
Variable getCourseInfo : string -> option Course.t.

(** The courses that the plan entries add to the semester at index [i]: those
    of the plan semester [i + 1 - currentSemester], when there is one and
    [i + 1] is within [TOTAL_SEMESTERS]; in progress for the first plan
    semester, planned for the others. *)
Definition plannedFor (currentSemesterNum : Z)
    (plan : list (list RawStudentData.entry)) (i : nat)
    : list (option StudentCourse.t) :=
  let planIndex := (Z.of_nat i + 1 - currentSemesterNum)%Z in
  if ((planIndex <? 0)%Z
      || (Z.of_nat (PHASE.TOTAL_SEMESTERS PHASE) <? Z.of_nat i + 1)%Z)%bool
  then []
  else match plan !! Z.to_nat planIndex with
       | Some entries =>
           foldl (pushPlanned getCourseInfo
                    (if (planIndex =? 0)%Z then IN_PROGRESS else PLANNED))
                 [] entries
       | None => []
       end.

Variable parseFloat : string -> JS.number.

(** The semester at index [i] before the plan entries are added: the one of
    the coursed entries at that index if any of them resolves, else, within
    [TOTAL_SEMESTERS], the empty semester that fills the gap. *)
Definition baseSemester (coursed : list (list RawStudentData.entry)) (i : nat)
    : option StudentSemester.t :=
  let stored := coursed !! i ≫= coursedSemester getCourseInfo parseFloat i in
  if (i <? PHASE.TOTAL_SEMESTERS PHASE)%nat
  then Some (default (emptySemester i) stored)
  else stored.

End ParseVocabulary.

(** * Example data *)

(** Sample constants: the values of the style and timetable configuration
    are not fixed by the parsers, which work for any of them. *)
Definition sampleBox : COURSE_BOX.t :=
  {| COURSE_BOX.MIN_WIDTH := 140;
     COURSE_BOX.WIDTH_FACTOR := 8 # 10;
     COURSE_BOX.SPACING_Y := 60;
     COURSE_BOX.HEIGHT := 50 |}.

Definition samplePhase : PHASE.t :=
  {| PHASE.MIN_WIDTH := 200;
     PHASE.BOXES_PER_COLUMN := 4;
     PHASE.TOTAL_SEMESTERS := 2 |}.

Definition sampleTimetable : TIMETABLE.t :=
  {| TIMETABLE.TIME_SLOTS :=
       [ {| TimeSlot.id := "08:00"; TimeSlot.label := "08:00" |};
         {| TimeSlot.id := "09:40"; TimeSlot.label := "09:40" |};
         {| TimeSlot.id := "11:20"; TimeSlot.label := "11:20" |} ];
     TIMETABLE.DAYS := ["Segunda"; "Quarta"; "Sexta"];
     TIMETABLE.DAYS_MAP :=
       <["Segunda" := 0%Z]> (<["Quarta" := 1%Z]> (<["Sexta" := 2%Z]> ∅)) |}.

Definition courseX : Course.t :=
  {| Course.id := "X"; Course.name := "Course X"; Course.credits := 4;
     Course.phase := 1; Course.type := mandatory; Course.prerequisites := [] |}.

Definition courseY : Course.t :=
  {| Course.id := "Y"; Course.name := "Course Y"; Course.credits := 6;
     Course.phase := 1; Course.type := mandatory; Course.prerequisites := ["X"] |}.

Definition studentX : StudentCourse.t :=
  {| StudentCourse.spread := courseX; StudentCourse.course := courseX;
     StudentCourse.status := IN_PROGRESS; StudentCourse.grade := None;
     StudentCourse.class := None |}.

Definition studentY : StudentCourse.t :=
  {| StudentCourse.spread := courseY; StudentCourse.course := courseY;
     StudentCourse.status := IN_PROGRESS; StudentCourse.grade := None;
     StudentCourse.class := None |}.

(** Semester 1 with the single course X. *)
Definition semesterOne : StudentSemester.t :=
  {| StudentSemester.number := 1;
     StudentSemester.courses := [Some studentX];
     StudentSemester.totalCredits := 4 |}.

Definition planOne : StudentPlan.t :=
  {| StudentPlan.id := "1"; StudentPlan.semesters := [Some semesterOne] |}.

(** Semester 1 with X and Y, both in progress. *)
Definition planTwo : StudentPlan.t :=
  {| StudentPlan.id := "1";
     StudentPlan.semesters :=
       [Some {| StudentSemester.number := 1;
                StudentSemester.courses := [Some studentX; Some studentY];
                StudentSemester.totalCredits := 10 |}] |}.

Definition infoOf (plan : StudentPlan.t) : StudentInfo.t :=
  {| StudentInfo.id := "1"; StudentInfo.studentId := "1";
     StudentInfo.name := "Student"; StudentInfo.currentPlan := Some plan;
     StudentInfo.plans := [plan]; StudentInfo.currentSemester := "1";
     StudentInfo.currentDegree := "208"; StudentInfo.interestedDegrees := [] |}.

(** X on day 1 at 08:00 and Y on day 1 at 09:40 by default; professor [p1]
    teaches X on Segunda and Quarta at 09:40. *)
Definition sampleSchedule : ScheduleData.t :=
  {| ScheduleData.courseTimes :=
       <["X" := [ {| ScheduleEntry.day := 1; ScheduleEntry.startTime := "08:00" |} ]]>
         (<["Y" := [ {| ScheduleEntry.day := 1; ScheduleEntry.startTime := "09:40" |} ]]> ∅);
     ScheduleData.professors :=
       Some (<["X" := [ {| ProfessorData.professorId := "p1";
                           ProfessorData.schedule := "Segunda/Domingo/Quarta 09:40-11:20" |} ]]> ∅) |}.

(** X in the last slot, and at a time that is the id of no slot. *)
Definition edgeSchedule : ScheduleData.t :=
  {| ScheduleData.courseTimes :=
       <["X" := [ {| ScheduleEntry.day := 2; ScheduleEntry.startTime := "11:20" |};
                  {| ScheduleEntry.day := 0; ScheduleEntry.startTime := "07:00" |} ]]> ∅;
     ScheduleData.professors := None |}.

(** The override of X by professor [p1]. *)
Definition overrideX : ProfessorOverride.t :=
  {| ProfessorOverride.courseId := "X";
     ProfessorOverride.professorId := "p1";
     ProfessorOverride.schedule :=
       [ {| ScheduleEntry.day := 0; ScheduleEntry.startTime := "09:40" |};
         {| ScheduleEntry.day := 1; ScheduleEntry.startTime := "09:40" |} ] |}.

(** The curriculum lookup of the samples knows X and Y. *)
Definition sampleLookup (courseCode : string) : option Course.t :=
  if String.eqb courseCode "X" then Some courseX
  else if String.eqb courseCode "Y" then Some courseY
  else None.

(** A stand-in for [parseFloat] on the grades of the samples. *)
Definition sampleParseFloat (s : string) : JS.number :=
  if String.eqb s "10" then JS.Num 10
  else if String.eqb s "5.5" then JS.Num (55 # 10)
  else JS.NaN.

(** A record whose three coursed semesters exceed [TOTAL_SEMESTERS = 2]. *)
Definition rawLong : RawStudentData.t :=
  {| RawStudentData.id := "7"; RawStudentData.studentId := "s7";
     RawStudentData.name := "Student"; RawStudentData.currentSemester := 1;
     RawStudentData.currentDegree := None;
     RawStudentData.interestedDegrees := None;
     RawStudentData.coursed := Some ([[]; []] ++ [[("X", Some "A", Some "10")]]);
     RawStudentData.plan := None |}.

(** A record whose plan starts at semester 0. *)
Definition rawZero : RawStudentData.t :=
  {| RawStudentData.id := "7"; RawStudentData.studentId := "s7";
     RawStudentData.name := "Student"; RawStudentData.currentSemester := 0;
     RawStudentData.currentDegree := None;
     RawStudentData.interestedDegrees := None;
     RawStudentData.coursed := Some [];
     RawStudentData.plan := Some [[("X", None, None)]] |}.

(** A record with one coursed semester: X passed, Y failed. *)
Definition rawGraded : RawStudentData.t :=
  {| RawStudentData.id := "7"; RawStudentData.studentId := "s7";
     RawStudentData.name := "Student"; RawStudentData.currentSemester := 2;
     RawStudentData.currentDegree := None;
     RawStudentData.interestedDegrees := None;
     RawStudentData.coursed :=
       Some [[("X", Some "A", Some "10"); ("Y", Some "B", Some "5.5")]];
     RawStudentData.plan := Some [[("Y", None, None)]] |}.

(** A capacity of one box per column. *)
Definition tightPhase : PHASE.t :=
  {| PHASE.MIN_WIDTH := 200;
     PHASE.BOXES_PER_COLUMN := 1;
     PHASE.TOTAL_SEMESTERS := 2 |}.

(** What the parser returns for [rawGraded]. *)
Definition infoGraded : StudentInfo.t :=
  default (infoOf planOne)
          (parseStudentData samplePhase sampleLookup sampleParseFloat rawGraded).

Definition planGraded : StudentPlan.t :=
  default planOne (StudentInfo.currentPlan infoGraded).

Definition semesterGraded : StudentSemester.t :=
  default semesterOne (mjoin (StudentPlan.semesters planGraded !! 0)).

(** Professor [p2] of X has no announced times. *)
Definition unannouncedSchedule : ScheduleData.t :=
  {| ScheduleData.courseTimes := ScheduleData.courseTimes sampleSchedule;
     ScheduleData.professors :=
       Some (<["X" := [ {| ProfessorData.professorId := "p2";
                           ProfessorData.schedule := "TBA" |} ]]> ∅) |}.

(** An override for a course Z that the student does not take. *)
Definition overrideZ : ProfessorOverride.t :=
  {| ProfessorOverride.courseId := "Z";
     ProfessorOverride.professorId := "p9";
     ProfessorOverride.schedule :=
       [ {| ScheduleEntry.day := 1; ScheduleEntry.startTime := "08:00" |} ] |}.

Definition samplePrograms : list DegreeProgram.t :=
  [ {| DegreeProgram.id := "208"; DegreeProgram.name := "Computer Science" |} ].

Definition sampleForm : RegisterFormData.t :=
  {| RegisterFormData.username := "ana"; RegisterFormData.password := "secret";
     RegisterFormData.name := "Ana"; RegisterFormData.studentId := "s1";
     RegisterFormData.currentDegree := "cs-degree";
     RegisterFormData.interestedDegrees := ["math-degree"] |}.

(** The plan of a student who has just registered. *)
Definition registrationPlan : StudentPlan.t :=
  default planOne (StudentInfo.currentPlan (registrationInfo sampleForm)).

(** * Properties of the JavaScript helpers *)

Section JSFacts.

Context {A St : Type}.

Lemma forEach_from_app (f : St -> A -> nat -> St) (l1 l2 : list (option A)) i st :
  JS.forEach_from f i (l1 ++ l2) st
  = JS.forEach_from f (i + length l1) l2 (JS.forEach_from f i l1 st).
Proof.
  revert i st. induction l1 as [|[a|] l1 IH]; intros i st; simpl.
  - by rewrite Nat.add_0_r.
  - rewrite IH. f_equal. lia.
  - rewrite IH. f_equal. lia.
Qed.

Lemma forEach_snoc (f : St -> A -> nat -> St) (l : list (option A)) a st :
  JS.forEach f (l ++ [Some a]) st = f (JS.forEach f l st) a (length l).
Proof. unfold JS.forEach. by rewrite forEach_from_app. Qed.

Lemma forEach_snoc_hole (f : St -> A -> nat -> St) (l : list (option A)) st :
  JS.forEach f (l ++ [None]) st = JS.forEach f l st.
Proof. unfold JS.forEach. by rewrite forEach_from_app. Qed.

End JSFacts.

Lemma elem_of_flat_map {A B : Type} (f : A -> list B) (l : list A) (y : B) :
  y ∈ flat_map f l <-> exists x, y ∈ f x /\ x ∈ l.
Proof.
  rewrite list_elem_of_In, in_flat_map. split.
  - intros (x & Hx & Hy). exists x. by rewrite !list_elem_of_In.
  - intros (x & Hy & Hx). exists x. by rewrite <- !list_elem_of_In.
Qed.

(** * [calculateStudentPositions] *)

Section PositionsFacts.

Variable COURSE_BOX : COURSE_BOX.t.
Variable PHASE : PHASE.t.
Variable phaseWidth : Q.

Local Abbreviation calc := (calculateStudentPositions COURSE_BOX PHASE phaseWidth).
Local Abbreviation after := (stateAfter COURSE_BOX PHASE phaseWidth).
Local Abbreviation addSem := (addSemester COURSE_BOX PHASE phaseWidth).
Local Abbreviation reals := (coursePositions COURSE_BOX phaseWidth).
Local Abbreviation ghosts := (ghostPositions COURSE_BOX PHASE phaseWidth).
Local Abbreviation capacity := (PHASE.BOXES_PER_COLUMN PHASE).
Local Abbreviation positions := PositionsState.positions.
Local Abbreviation courseMap := PositionsState.studentCourseMap.

(** The accumulators after the courses of one semester. *)
Lemma addCourses_positions si j (l : list (option StudentCourse.t)) st :
  positions (JS.forEach_from (addCourse COURSE_BOX phaseWidth si) j l st)
  = positions st ++ coursePositions_from COURSE_BOX phaseWidth si j l.
Proof.
  revert j st. induction l as [|[c|] l IH]; intros j st; simpl.
  - by rewrite app_nil_r.
  - rewrite IH. simpl. by rewrite <- app_assoc.
  - apply IH.
Qed.

Lemma addCourses_courseMap si j (l : list (option StudentCourse.t)) st :
  courseMap (JS.forEach_from (addCourse COURSE_BOX phaseWidth si) j l st)
  = foldl (fun m c => <[courseKey c := c]> m) (courseMap st) (omap id l).
Proof.
  revert j st. induction l as [|[c|] l IH]; intros j st; simpl; [done| |apply IH].
  by rewrite IH.
Qed.

Lemma addGhosts_positions si sem (l : list nat) st :
  positions (foldl (addGhost COURSE_BOX phaseWidth si sem) st l)
  = positions st ++ (ghostPosition COURSE_BOX phaseWidth si sem <$> l).
Proof.
  revert st. induction l as [|i l IH]; intros st; simpl.
  - by rewrite app_nil_r.
  - rewrite IH. simpl. by rewrite <- app_assoc.
Qed.

Lemma addGhosts_courseMap si sem (l : list nat) st :
  courseMap (foldl (addGhost COURSE_BOX phaseWidth si sem) st l) = courseMap st.
Proof. revert st. induction l as [|i l IH]; intros st; simpl; [done|by rewrite IH]. Qed.

Lemma addSemester_positions st sem si :
  positions (addSem st sem si) = positions st ++ reals si sem ++ ghosts si sem.
Proof.
  unfold addSemester, JS.forEach.
  by rewrite addGhosts_positions, addCourses_positions, <- app_assoc.
Qed.

Lemma addSemester_courseMap st sem si :
  courseMap (addSem st sem si)
  = foldl (fun m c => <[courseKey c := c]> m) (courseMap st) (coursesOf sem).
Proof.
  unfold addSemester, JS.forEach.
  by rewrite addGhosts_courseMap, addCourses_courseMap.
Qed.

(** Processing the plan one semester slot at a time. *)
Lemma stateAfter_S plan i sem :
  StudentPlan.semesters plan !! i = Some (Some sem) ->
  after plan (S i) = addSem (after plan i) sem i.
Proof.
  intros Hi. unfold stateAfter.
  rewrite (take_S_r _ _ _ Hi), forEach_snoc.
  rewrite length_take_le; [done|].
  apply lookup_lt_Some in Hi. lia.
Qed.

Lemma stateAfter_S_hole plan i :
  StudentPlan.semesters plan !! i = Some None ->
  after plan (S i) = after plan i.
Proof.
  intros Hi. unfold stateAfter.
  by rewrite (take_S_r _ _ _ Hi), forEach_snoc_hole.
Qed.

Lemma stateAfter_all plan :
  after plan (length (StudentPlan.semesters plan)) = calc plan.
Proof. unfold stateAfter, calculateStudentPositions. by rewrite firstn_all. Qed.

Lemma stateAfter_ge plan n :
  length (StudentPlan.semesters plan) <= n -> after plan n = calc plan.
Proof.
  intros Hn. unfold stateAfter, calculateStudentPositions. by rewrite take_ge.
Qed.

Lemma stateAfter_prefix_S plan n :
  positions (after plan n) `prefix_of` positions (after plan (S n)).
Proof.
  destruct (StudentPlan.semesters plan !! n) as [[sem|]|] eqn:Hn.
  - rewrite (stateAfter_S _ _ _ Hn), addSemester_positions. by apply prefix_app_r.
  - by rewrite (stateAfter_S_hole _ _ Hn).
  - apply lookup_ge_None in Hn.
    rewrite !stateAfter_ge by lia. done.
Qed.

Lemma stateAfter_prefix plan n m :
  n <= m -> positions (after plan n) `prefix_of` positions (after plan m).
Proof.
  induction 1 as [|m Hle IH]; [done|].
  etrans; [exact IH|apply stateAfter_prefix_S].
Qed.

Lemma stateAfter_prefix_final plan n :
  positions (after plan n) `prefix_of` positions (calc plan).
Proof.
  destruct (Nat.le_gt_cases n (length (StudentPlan.semesters plan))) as [Hle|Hgt].
  - rewrite <- stateAfter_all. by apply stateAfter_prefix.
  - rewrite stateAfter_ge by lia. done.
Qed.

Lemma coursePositions_from_real si j (l : list (option StudentCourse.t)) :
  Forall (fun p => CoursePosition.isGhost p = None)
         (coursePositions_from COURSE_BOX phaseWidth si j l).
Proof.
  revert j. induction l as [|[c|] l IH]; intros j; simpl; auto.
Qed.

Lemma ghostPositions_lookup si sem n :
  n < capacity - length (StudentSemester.courses sem) ->
  ghosts si sem !! n
  = Some (ghostPosition COURSE_BOX phaseWidth si sem
            (length (StudentSemester.courses sem) + n)).
Proof.
  intros Hn. unfold ghostPositions.
  by rewrite list_lookup_fmap, lookup_seq_lt.
Qed.

(** C1.  Ghost padding: while semester [i] of the plan is processed, with
    [k] courses and [k] below [BOXES_PER_COLUMN], the positions grow by those
    of its courses, none of which is a ghost, followed by exactly
    [BOXES_PER_COLUMN - k] ghost boxes; the [n]-th of these has
    [isGhost = true] and the id [ghost-{semester.number}-{k + n}]; they all
    are in the final positions.  For semester number 1 with one course and a
    capacity of 4 the ghost ids are [ghost-1-1], [ghost-1-2], [ghost-1-3]. *)
Theorem ghost_padding (plan : StudentPlan.t) (i : nat) (sem : StudentSemester.t) :
  StudentPlan.semesters plan !! i = Some (Some sem) ->
  length (StudentSemester.courses sem) < capacity ->
  let k := length (StudentSemester.courses sem) in
  positions (after plan (S i))
    = positions (after plan i) ++ reals i sem ++ ghosts i sem
  /\ positions (after plan (S i)) `prefix_of` positions (calc plan)
  /\ Forall (fun p => CoursePosition.isGhost p = None) (reals i sem)
  /\ length (ghosts i sem) = capacity - k
  /\ (forall n, n < capacity - k ->
        exists p, ghosts i sem !! n = Some p
          /\ CoursePosition.isGhost p = Some true
          /\ CoursePosition.courseId p
             = "ghost-" +:+ JS.string_of_Z (StudentSemester.number sem)
                 +:+ "-" +:+ JS.string_of_nat (k + n))
  /\ (capacity = 4 -> StudentSemester.number sem = 1%Z -> k = 1 ->
        CoursePosition.courseId <$> ghosts i sem
        = ["ghost-1-1"; "ghost-1-2"; "ghost-1-3"]).
Proof.
  intros Hi Hk k. repeat split.
  - by rewrite (stateAfter_S _ _ _ Hi), addSemester_positions.
  - apply stateAfter_prefix_final.
  - apply coursePositions_from_real.
  - unfold ghostPositions. by rewrite length_fmap, length_seq.
  - intros n Hn. eexists. split; [by apply ghostPositions_lookup|]. done.
  - intros Hcap Hnum Hk1. unfold ghostPositions. fold k.
    rewrite Hcap, Hk1. simpl. by rewrite Hnum.
Qed.

(** The whole plan, as a fold over any list of semester slots. *)
Lemma coursePositions_from_length si j (l : list (option StudentCourse.t)) :
  length (coursePositions_from COURSE_BOX phaseWidth si j l) = length (omap id l).
Proof.
  revert j. induction l as [|[c|] l IH]; intros j; simpl; [done| |apply IH].
  by rewrite IH.
Qed.

Lemma omap_id_dense {A : Type} (l : list (option A)) :
  Forall is_Some l -> length (omap id l) = length l.
Proof.
  induction 1 as [|x l [a ->] _ IH]; simpl; [done|]. f_equal. exact IH.
Qed.






Lemma ghostPositions_length si sem :
  length (ghosts si sem) = capacity - length (StudentSemester.courses sem).
Proof. unfold ghostPositions. by rewrite length_fmap, length_seq. Qed.

(** Without any assumption on the plan: a slot that holds no course still
    counts in [courses.length], where the ghost boxes start. *)
Lemma forEach_positions_length_any (l : list (option StudentSemester.t)) :
  length (positions (JS.forEach addSem l PositionsState.empty))
  = sum_list_with
      (fun sem => length (coursesOf sem)
                  + (capacity - length (StudentSemester.courses sem)))
      (omap id l).
Proof.
  induction l as [|[sem|] l IH] using rev_ind.
  - done.
  - rewrite forEach_snoc, addSemester_positions, !length_app, IH.
    rewrite omap_app, sum_list_with_app. simpl.
    unfold coursePositions, coursesOf.
    rewrite coursePositions_from_length, ghostPositions_length. lia.
  - rewrite forEach_snoc_hole, omap_app. simpl. by rewrite app_nil_r.
Qed.

Lemma forEach_positions_length (l : list (option StudentSemester.t)) :
  Forall (fun sem => Forall is_Some (StudentSemester.courses sem)) (omap id l) ->
  length (positions (JS.forEach addSem l PositionsState.empty))
  = sum_list_with
      (fun sem => length (StudentSemester.courses sem) `max` capacity)
      (omap id l).
Proof.
  induction l as [|[sem|] l IH] using rev_ind; intros Hd.
  - done.
  - rewrite omap_app in Hd. apply Forall_app in Hd as [Hd1 Hd2].
    apply Forall_cons in Hd2 as [Hsem _].
    rewrite forEach_snoc, addSemester_positions, !length_app, (IH Hd1).
    rewrite omap_app, sum_list_with_app. simpl.
    unfold coursePositions.
    rewrite coursePositions_from_length. rewrite (omap_id_dense _ Hsem), ghostPositions_length.
    lia.
  - rewrite omap_app in Hd. simpl in Hd. rewrite app_nil_r in Hd.
    rewrite forEach_snoc_hole, omap_app. simpl. rewrite app_nil_r. by apply IH.
Qed.



Lemma forEach_courseMap (l : list (option StudentSemester.t)) :
  courseMap (JS.forEach addSem l PositionsState.empty)
  = foldl (fun m c => <[courseKey c := c]> m) ∅
          (flat_map coursesOf (omap id l)).
Proof.
  induction l as [|[sem|] l IH] using rev_ind.
  - done.
  - rewrite forEach_snoc, addSemester_courseMap, IH.
    rewrite omap_app, flat_map_app, foldl_app. simpl. by rewrite app_nil_r.
  - rewrite forEach_snoc_hole, omap_app. simpl. by rewrite app_nil_r.
Qed.

(** Inserting a list of courses under their keys: the last one of a key
    stays. *)
Lemma foldl_insert_lookup (m : gmap string StudentCourse.t)
    (l : list StudentCourse.t) (key : string) :
  foldl (fun m c => <[courseKey c := c]> m) m l !! key
  = match last (filter (fun c => courseKey c = key) l) with
    | Some c => Some c
    | None => m !! key
    end.
Proof.
  induction l as [|c l IH] using rev_ind; [done|].
  rewrite foldl_snoc, filter_app.
  destruct (decide (courseKey c = key)) as [Heq|Hne].
  - rewrite (filter_cons_True (fun c => courseKey c = key) _ _ Heq), filter_nil, last_snoc.
    by rewrite Heq, lookup_insert_eq.
  - rewrite (filter_cons_False (fun c => courseKey c = key) _ _ Hne), filter_nil, app_nil_r.
    by rewrite lookup_insert_ne.
Qed.




(** C9.  [courseMap]: under each key it holds the last course of the plan, in
    processing order, whose course id is that key, and nothing under the
    other keys; its keys are the course ids of the courses of the plan, the
    ghost boxes adding none. *)
Theorem courseMap_contents (plan : StudentPlan.t) :
  (forall key,
     courseMap (calc plan) !! key
     = last (filter (fun c => courseKey c = key) (realCourses plan)))
  /\ dom (courseMap (calc plan)) = list_to_set (courseKey <$> realCourses plan)
  /\ (forall si sem st l,
        courseMap (foldl (addGhost COURSE_BOX phaseWidth si sem) st l)
        = courseMap st).
Proof.
  assert (Hlook : forall key,
     courseMap (calc plan) !! key
     = last (filter (fun c => courseKey c = key) (realCourses plan))).
  { intros key. unfold calculateStudentPositions.
    rewrite forEach_courseMap, foldl_insert_lookup, lookup_empty.
    by destruct (last _). }
  split; [exact Hlook|]. split.
  - apply set_eq. intros key.
    rewrite elem_of_dom, Hlook, last_is_Some, elem_of_list_to_set, list_elem_of_fmap.
    split.
    + intros Hne. destruct (filter _ _) as [|c l] eqn:Hf; [done|].
      assert (Hc : c ∈ filter (fun c => courseKey c = key) (realCourses plan))
        by (rewrite Hf; apply list_elem_of_here).
      apply list_elem_of_filter in Hc as [Hk Hc]. by exists c.
    + intros (c & -> & Hc) Hnil.
      exact (filter_nil_not_elem_of (fun c' => courseKey c' = courseKey c) _ c
               Hnil eq_refl Hc).
  - intros. apply addGhosts_courseMap.
Qed.

End PositionsFacts.

(** * [parseStudentData] *)

Section ArrayFacts.

Context {A : Type}.
Implicit Types (l : list (option A)) (i j : nat) (v : A).

Lemma get_Some l i v : JS.get l i = Some v <-> l !! i = Some (Some v).
Proof.
  unfold JS.get. destruct (l !! i) as [[a|]|]; simpl; split; congruence.
Qed.

Lemma get_ge l i : length l <= i -> JS.get l i = None.
Proof. intros Hi. unfold JS.get. by rewrite (lookup_ge_None_2 l i Hi). Qed.

Lemma length_set l i v : length (JS.set l i v) = length l `max` S i.
Proof.
  unfold JS.set. destruct (Nat.ltb_spec i (length l)).
  - rewrite length_insert. lia.
  - rewrite !length_app, length_replicate. simpl. lia.
Qed.

Lemma get_set_eq l i v : JS.get (JS.set l i v) i = Some v.
Proof.
  unfold JS.get, JS.set. destruct (Nat.ltb_spec i (length l)).
  - by rewrite list_lookup_insert_eq.
  - rewrite lookup_app_r by done.
    rewrite lookup_app_r by (rewrite length_replicate; lia).
    rewrite length_replicate, Nat.sub_diag. done.
Qed.

Lemma get_set_ne l i j v : i <> j -> JS.get (JS.set l i v) j = JS.get l j.
Proof.
  intros Hne. unfold JS.get, JS.set. destruct (Nat.ltb_spec i (length l)).
  - by rewrite list_lookup_insert_ne.
  - destruct (Nat.lt_ge_cases j (length l)) as [Hj|Hj].
    + by rewrite lookup_app_l.
    + rewrite (lookup_ge_None_2 l j Hj), lookup_app_r by done.
      destruct (Nat.lt_ge_cases (j - length l) (i - length l)) as [Hlt|Hge].
      * rewrite lookup_app_l by (by rewrite length_replicate).
        by rewrite lookup_replicate_2.
      * rewrite lookup_app_r by (by rewrite length_replicate).
        rewrite length_replicate.
        rewrite lookup_ge_None_2; [done|]. simpl. lia.
Qed.

End ArrayFacts.

Section ParseFacts.

Variable PHASE : PHASE.t.
Variable getCourseInfo : string -> option Course.t.
Variable parseFloat : string -> JS.number.

Local Abbreviation total := (PHASE.TOTAL_SEMESTERS PHASE).
Local Abbreviation pushC := (pushCoursed getCourseInfo parseFloat).
Local Abbreviation coursedC := (coursedCourse getCourseInfo parseFloat).
Local Abbreviation coursedS := (coursedSemester getCourseInfo parseFloat).
Local Abbreviation addCoursed := (addCoursedSemester getCourseInfo parseFloat).
Local Abbreviation addPlan := (addPlanSemester PHASE getCourseInfo).
Local Abbreviation parseSems := (parseSemesters PHASE getCourseInfo parseFloat).
Local Abbreviation parse := (parseStudentData PHASE getCourseInfo parseFloat).

(** **** The coursed entries *)

Lemma pushCoursed_app (courses : list StudentCourse.t) (e : RawStudentData.entry) :
  pushC courses e = courses ++ pushC [] e.
Proof.
  destruct e as [[code cls] g]. unfold pushCoursed.
  destruct (getCourseInfo code); simpl; [done|by rewrite app_nil_r].
Qed.

Lemma pushCoursed_omap (courses : list StudentCourse.t)
    (entries : list RawStudentData.entry) :
  foldl pushC courses entries = courses ++ omap coursedC entries.
Proof.
  revert courses. induction entries as [|e entries IH]; intros courses; simpl.
  - by rewrite app_nil_r.
  - rewrite IH, pushCoursed_app, <- app_assoc. f_equal.
    unfold coursedCourse. destruct e as [[code cls] g]. unfold pushCoursed.
    by destruct (getCourseInfo code).
Qed.

Lemma coursedCourse_resolved code cls g courseInfo :
  getCourseInfo code = Some courseInfo ->
  coursedC (code, cls, g)
  = Some {| StudentCourse.spread := courseInfo;
            StudentCourse.course := courseInfo;
            StudentCourse.status := statusOfGrade (gradeValueOf parseFloat g);
            StudentCourse.grade := Some (gradeValueOf parseFloat g);
            StudentCourse.class := classOf cls |}.
Proof. intros H. unfold coursedCourse, pushCoursed. by rewrite H. Qed.

Lemma coursedSemester_unfold (n : nat) (entries : list RawStudentData.entry) :
  coursedS n entries
  = let courses := omap coursedC entries in
    if (0 <? length courses)%nat then
      Some {| StudentSemester.number := Z.of_nat (S n);
              StudentSemester.courses := Some <$> courses;
              StudentSemester.totalCredits := sumCredits (Some <$> courses) |}
    else None.
Proof.
  unfold coursedSemester, addCoursedSemester.
  rewrite pushCoursed_omap, app_nil_l. cbv zeta.
  destruct (0 <? length _)%nat; [|done].
  replace (S n - 1) with n by lia. by rewrite get_set_eq.
Qed.

Lemma addCoursedSemester_unfold semesters (entries : list RawStudentData.entry) n :
  addCoursed semesters entries n
  = match coursedS n entries with
    | Some sem => JS.set semesters n sem
    | None => semesters
    end.
Proof.
  rewrite coursedSemester_unfold. unfold addCoursedSemester.
  rewrite pushCoursed_omap, app_nil_l. cbv zeta.
  destruct (0 <? length _)%nat; [|done].
  by replace (S n - 1) with n by lia.
Qed.

Lemma coursed_pass (coursed : list (list RawStudentData.entry)) :
  let semesters := JS.forEach addCoursed (Some <$> coursed) [] in
  length semesters <= length coursed
  /\ forall i, JS.get semesters i = coursed !! i ≫= coursedS i.
Proof.
  induction coursed as [|x l IH] using rev_ind; simpl.
  - split; [done|]. intros i. by destruct i.
  - destruct IH as [Hlen Hget].
    rewrite fmap_app. simpl. rewrite forEach_snoc, length_fmap.
    rewrite addCoursedSemester_unfold, length_app. simpl.
    assert (Hlast : forall i, i <> length l ->
              (l ++ [x]) !! i ≫= coursedS i = l !! i ≫= coursedS i).
    { intros i Hi. destruct (Nat.lt_ge_cases i (length l)).
      - by rewrite lookup_app_l.
      - rewrite (lookup_ge_None_2 l i) by done.
        rewrite lookup_ge_None_2; [done|]. rewrite length_app. simpl. lia. }
    assert (Hhere : (l ++ [x]) !! length l ≫= coursedS (length l)
                    = coursedS (length l) x).
    { by rewrite list_lookup_middle. }
    destruct (coursedS (length l) x) as [sem|] eqn:Hsem.
    + split; [rewrite length_set; lia|]. intros i.
      destruct (decide (i = length l)) as [->|Hi].
      * by rewrite get_set_eq, Hhere.
      * rewrite get_set_ne by done. by rewrite Hget, Hlast.
    + split; [lia|]. intros i.
      destruct (decide (i = length l)) as [->|Hi].
      * rewrite Hhere. by apply get_ge.
      * by rewrite Hget, Hlast.
Qed.

(** **** Filling the gaps *)

Lemma fill_pass (semesters : list (option StudentSemester.t)) (n : nat) :
  let semesters' := foldl fillGap semesters (seq 0 n) in
  length semesters' = length semesters `max` n
  /\ forall i, JS.get semesters' i
       = if (i <? n)%nat
         then Some (default (emptySemester i) (JS.get semesters i))
         else JS.get semesters i.
Proof.
  induction n as [|n IH]; cbv zeta.
  - simpl. split; [lia|done].
  - rewrite seq_S, foldl_snoc, Nat.add_0_l.
    cbv zeta in IH. set (semesters' := foldl fillGap semesters (seq 0 n)) in *.
    destruct IH as [Hlen Hget]. unfold fillGap.
    pose proof (Hget n) as Hn. rewrite Nat.ltb_irrefl in Hn. rewrite Hn.
    destruct (JS.get semesters n) as [sem|] eqn:Hsem.
    + split.
      * apply get_Some, lookup_lt_Some in Hsem. lia.
      * intros i. rewrite Hget.
        destruct (Nat.ltb_spec i n), (Nat.ltb_spec i (S n)); try lia; try done.
        assert (i = n) as -> by lia. by rewrite Hsem.
    + split; [rewrite length_set; lia|]. intros i.
      destruct (decide (i = n)) as [->|Hi].
      * rewrite get_set_eq, Hsem. simpl.
        by destruct (Nat.ltb_spec n (S n)); [|lia].
      * rewrite get_set_ne by done. rewrite Hget.
        destruct (Nat.ltb_spec i n), (Nat.ltb_spec i (S n)); try lia; done.
Qed.

(** **** The planned entries *)

Lemma extends_refl (semesters : list (option StudentSemester.t)) :
  extends semesters semesters.
Proof.
  unfold extends. induction semesters as [|[s|] l IH]; constructor; auto.
Qed.

Lemma extends_trans (s1 s2 s3 : list (option StudentSemester.t)) :
  extends s1 s2 -> extends s2 s3 -> extends s1 s3.
Proof.
  unfold extends. intros H12. revert s3.
  induction H12 as [|a b l1 l2 Hab _ IH]; intros s3 H23.
  - by inversion H23.
  - inversion H23 as [|b' c l2' l3 Hbc Hrest]; subst. constructor; [|by apply IH].
    destruct a, b, c; try done.
    destruct Hab as [Hn1 Hp1], Hbc as [Hn2 Hp2]. split; [congruence|by etrans].
Qed.

Lemma extends_length (s1 s2 : list (option StudentSemester.t)) :
  extends s1 s2 -> length s2 = length s1.
Proof. intros H. symmetry. by eapply Forall2_length. Qed.

Lemma extends_get (s1 s2 : list (option StudentSemester.t)) i sem :
  extends s1 s2 -> JS.get s1 i = Some sem ->
  exists sem', JS.get s2 i = Some sem'
    /\ StudentSemester.number sem' = StudentSemester.number sem
    /\ StudentSemester.courses sem `prefix_of` StudentSemester.courses sem'.
Proof.
  intros Hext Hget. apply get_Some in Hget.
  destruct (Forall2_lookup_l _ _ _ _ _ Hext Hget) as ([sem'|] & Hl & HP); [|done].
  exists sem'. by rewrite get_Some.
Qed.

Lemma pushPlanned_prefix status (courses : list (option StudentCourse.t))
    (entries : list RawStudentData.entry) :
  courses `prefix_of` foldl (pushPlanned getCourseInfo status) courses entries.
Proof.
  revert courses. induction entries as [|[[code cls] g] entries IH]; intros courses.
  - done.
  - simpl. destruct (getCourseInfo code); [|apply IH].
    etrans; [|apply IH]. by apply prefix_app_r.
Qed.

Lemma getZ_Some (semesters : list (option StudentSemester.t)) z sem :
  getZ semesters z = Some sem ->
  (0 <= z)%Z /\ semesters !! Z.to_nat z = Some (Some sem).
Proof.
  unfold getZ. destruct (Z.ltb_spec z 0) as [Hneg|Hpos]; [done|].
  intros Hget. split; [done|by apply get_Some].
Qed.

Lemma addPlanSemester_extends cur semesters
    (entries : list RawStudentData.entry) n semesters' :
  addPlan cur (Some semesters) entries n = Some semesters' ->
  extends semesters semesters'.
Proof.
  unfold addPlanSemester. simpl.
  destruct (Z.ltb_spec (Z.of_nat total) (cur + Z.of_nat n)).
  - intros [= <-]. apply extends_refl.
  - destruct (getZ semesters _) as [target|] eqn:Ht; simpl; [|done].
    intros [= <-]. apply getZ_Some in Ht as [_ Ht].
    rewrite <- (list_insert_id _ _ _ Ht) at 1.
    apply Forall2_insert; [apply extends_refl|].
    split; [done|apply pushPlanned_prefix].
Qed.

Lemma plan_pass_extends cur (plan : list (list RawStudentData.entry))
    semesters semesters' :
  JS.forEach (addPlan cur) (Some <$> plan) (Some semesters) = Some semesters' ->
  extends semesters semesters'.
Proof.
  revert semesters'. induction plan as [|x l IH] using rev_ind; intros semesters'.
  - intros [= <-]. apply extends_refl.
  - rewrite fmap_app. simpl. rewrite forEach_snoc.
    destruct (JS.forEach _ (Some <$> l) _) as [mid|]; [|done].
    intros Hstep. eapply extends_trans; [by apply IH|].
    by eapply addPlanSemester_extends.
Qed.

Lemma plan_pass_total cur (plan : list (list RawStudentData.entry)) semesters :
  (1 <= cur)%Z ->
  (forall i, i < total -> is_Some (JS.get semesters i)) ->
  is_Some (JS.forEach (addPlan cur) (Some <$> plan) (Some semesters)).
Proof.
  intros Hcur Hfilled. induction plan as [|x l IH] using rev_ind; [by eexists|].
  rewrite fmap_app. simpl. rewrite forEach_snoc, length_fmap.
  destruct IH as [mid Hmid]. rewrite Hmid.
  pose proof (plan_pass_extends _ _ _ _ Hmid) as Hext.
  unfold addPlanSemester. simpl.
  destruct (Z.ltb_spec (Z.of_nat total) (cur + Z.of_nat (length l))); [by eexists|].
  unfold getZ. destruct (Z.ltb_spec (cur + Z.of_nat (length l) - 1) 0); [lia|].
  destruct (Hfilled (Z.to_nat (cur + Z.of_nat (length l) - 1))) as [sem Hsem]; [lia|].
  destruct (extends_get _ _ _ _ Hext Hsem) as (sem' & -> & _). by eexists.
Qed.

(** **** The three passes together *)

(** The array before the planned entries are added. *)
Lemma parseSemesters_spec (jsonData : RawStudentData.t) :
  let coursed := default [] (RawStudentData.coursed jsonData) in
  exists semesters2,
    length semesters2 <= length coursed `max` total
    /\ total <= length semesters2
    /\ (forall i, JS.get semesters2 i
          = if (i <? total)%nat
            then Some (default (emptySemester i) (coursed !! i ≫= coursedS i))
            else coursed !! i ≫= coursedS i)
    /\ ((1 <= RawStudentData.currentSemester jsonData)%Z ->
        is_Some (parseSems jsonData))
    /\ (RawStudentData.plan jsonData = None -> parseSems jsonData = Some semesters2)
    /\ (forall semesters, parseSems jsonData = Some semesters ->
          extends semesters2 semesters).
Proof.
  intros coursed. unfold parseSemesters.
  set (semesters1 := match RawStudentData.coursed jsonData with
                     | Some c => JS.forEach addCoursed (Some <$> c) []
                     | None => []
                     end).
  assert (H1 : length semesters1 <= length coursed
               /\ forall i, JS.get semesters1 i = coursed !! i ≫= coursedS i).
  { subst semesters1 coursed. destruct (RawStudentData.coursed jsonData) as [c|]; simpl.
    - apply coursed_pass.
    - split; [done|]. intros i. by destruct i. }
  destruct H1 as [Hlen1 Hget1].
  destruct (fill_pass semesters1 total) as [Hlen2 Hget2].
  set (semesters2 := foldl fillGap semesters1 (seq 0 total)) in *.
  exists semesters2. repeat split.
  - lia.
  - lia.
  - intros i. by rewrite Hget2, Hget1.
  - intros Hcur. destruct (RawStudentData.plan jsonData) as [plan|]; [|by eexists].
    apply plan_pass_total; [done|].
    intros i Hi. rewrite Hget2. destruct (Nat.ltb_spec i total); [by eexists|lia].
  - by intros ->.
  - intros semesters. destruct (RawStudentData.plan jsonData) as [plan|].
    + apply plan_pass_extends.
    + intros [= <-]. apply extends_refl.
Qed.

Lemma parseStudentData_plan (jsonData : RawStudentData.t) info :
  parse jsonData = Some info ->
  exists semesters,
    parseSems jsonData = Some semesters
    /\ StudentInfo.currentPlan info
       = Some {| StudentPlan.id := "1"; StudentPlan.semesters := semesters |}.
Proof.
  unfold parseStudentData.
  destruct (parseSems jsonData) as [semesters|]; simpl; [|done].
  intros [= <-]. by exists semesters.
Qed.

(** Within the nominal duration the plan has [TOTAL_SEMESTERS] semesters and
    no empty slot. *)
Lemma parseStudentData_semester_count (jsonData : RawStudentData.t) info plan :
  length (default [] (RawStudentData.coursed jsonData)) <= total ->
  parse jsonData = Some info ->
  StudentInfo.currentPlan info = Some plan ->
  length (StudentPlan.semesters plan) = total
  /\ Forall is_Some (StudentPlan.semesters plan).
Proof.
  intros Hlen Hparse Hplan.
  destruct (parseStudentData_plan _ _ Hparse) as (semesters & Hsems & Hcur).
  rewrite Hcur in Hplan. injection Hplan as <-. simpl.
  destruct (parseSemesters_spec jsonData) as (s2 & Hle & Hge & Hget & _ & _ & Hext).
  specialize (Hext _ Hsems).
  assert (Hl : length semesters = total) by (rewrite (extends_length _ _ Hext); lia).
  split; [done|].
  apply Forall_lookup. intros i x Hi.
  assert (Hit : i < total) by (apply lookup_lt_Some in Hi; lia).
  pose proof (Hget i) as Hgi. destruct (Nat.ltb_spec i total); [|lia].
  destruct (extends_get _ _ _ _ Hext Hgi) as (sem' & Hsem' & _).
  apply get_Some in Hsem'. rewrite Hsem' in Hi. injection Hi as <-. by eexists.
Qed.

(** C8.  The fixed semester count is broken by the coursed entries: when
    [coursed] has one semester more than [TOTAL_SEMESTERS], holding a course
    of the curriculum, the plan has [TOTAL_SEMESTERS + 1] semesters.  Only
    the planned entries are bounded by [TOTAL_SEMESTERS]. *)
Theorem semester_count_exceeded (jsonData : RawStudentData.t)
    (code : string) (cls g : option string) (courseInfo : Course.t) :
  getCourseInfo code = Some courseInfo ->
  RawStudentData.coursed jsonData
    = Some (replicate total [] ++ [[(code, cls, g)]]) ->
  RawStudentData.plan jsonData = None ->
  exists info plan,
    parse jsonData = Some info
    /\ StudentInfo.currentPlan info = Some plan
    /\ length (StudentPlan.semesters plan) = S total
    /\ length (StudentPlan.semesters plan) <> total.
Proof.
  intros Hcode Hcoursed Hplan.
  destruct (parseSemesters_spec jsonData) as (s2 & Hle & Hge & Hget & _ & Hnone & _).
  specialize (Hnone Hplan). rewrite Hcoursed in Hle, Hget. simpl in Hle, Hget.
  rewrite length_app, length_replicate in Hle. simpl in Hle.
  pose proof (Hget total) as Ht. rewrite Nat.ltb_irrefl in Ht.
  rewrite lookup_app_r in Ht by (by rewrite length_replicate).
  rewrite length_replicate, Nat.sub_diag in Ht. simpl in Ht.
  rewrite coursedSemester_unfold in Ht. simpl in Ht.
  rewrite (coursedCourse_resolved _ _ _ _ Hcode) in Ht. simpl in Ht.
  apply get_Some, lookup_lt_Some in Ht.
  unfold parseStudentData. rewrite Hnone. simpl.
  eexists _, _. split; [done|]. split; [done|]. simpl. lia.
Qed.

(** C10.  Grade and status of a coursed entry whose code resolves: the
    parser returns whenever [currentSemester] is at least 1, and in its
    result the semester at the entry's index holds a course for it whose
    grade is [parseFloat(grade)], or 0 for a missing or empty grade, and
    whose status is [COMPLETED] exactly when that grade is [>= 6] and
    [FAILED] otherwise; so a missing or empty grade gives [FAILED]. *)
Theorem grade_status (jsonData : RawStudentData.t)
    (coursed : list (list RawStudentData.entry)) (i j : nat)
    (entries : list RawStudentData.entry)
    (code : string) (cls g : option string) (courseInfo : Course.t) :
  RawStudentData.coursed jsonData = Some coursed ->
  coursed !! i = Some entries ->
  entries !! j = Some (code, cls, g) ->
  getCourseInfo code = Some courseInfo ->
  let gradeValue := gradeValueOf parseFloat g in
  ((1 <= RawStudentData.currentSemester jsonData)%Z -> is_Some (parse jsonData))
  /\ (forall s, g = Some s -> s <> "" -> gradeValue = parseFloat s)
  /\ (g = None \/ g = Some "" -> gradeValue = JS.Num 0)
  /\ forall info, parse jsonData = Some info ->
       exists plan sem sc,
         StudentInfo.currentPlan info = Some plan
         /\ StudentPlan.semesters plan !! i = Some (Some sem)
         /\ Some sc ∈ StudentSemester.courses sem
         /\ StudentCourse.course sc = courseInfo
         /\ StudentCourse.grade sc = Some gradeValue
         /\ (StudentCourse.status sc = COMPLETED
             <-> JS.geb gradeValue (JS.Num 6) = true)
         /\ (StudentCourse.status sc = FAILED
             <-> JS.geb gradeValue (JS.Num 6) = false)
         /\ (g = None \/ g = Some "" -> StudentCourse.status sc = FAILED).
Proof.
  intros Hcoursed Hi Hj Hcode gradeValue.
  destruct (parseSemesters_spec jsonData) as (s2 & _ & _ & Hget & Htot & _ & Hext).
  assert (Hzero : g = None \/ g = Some "" -> gradeValue = JS.Num 0).
  { intros [->| ->]; done. }
  split; [|split; [|split; [exact Hzero|]]].
  - intros Hcur. destruct (Htot Hcur) as [semesters Hs].
    unfold parseStudentData. rewrite Hs. by eexists.
  - intros s -> Hs. subst gradeValue. unfold gradeValueOf, JS.truthy.
    by destruct (String.eqb_spec s "").
  - intros info Hparse.
    destruct (parseStudentData_plan _ _ Hparse) as (semesters & Hsems & Hplan).
    specialize (Hext _ Hsems).
    set (sc := {| StudentCourse.spread := courseInfo;
                  StudentCourse.course := courseInfo;
                  StudentCourse.status := statusOfGrade gradeValue;
                  StudentCourse.grade := Some gradeValue;
                  StudentCourse.class := classOf cls |}).
    assert (Hsc : sc ∈ omap coursedC entries).
    { apply list_elem_of_omap. exists (code, cls, g). split.
      - by eapply list_elem_of_lookup_2.
      - by apply coursedCourse_resolved. }
    assert (Hget2 : exists sem2, JS.get s2 i = Some sem2
              /\ StudentSemester.courses sem2 = Some <$> omap coursedC entries).
    { assert (Hcs : coursedS i entries
                = Some {| StudentSemester.number := Z.of_nat (S i);
                          StudentSemester.courses := Some <$> omap coursedC entries;
                          StudentSemester.totalCredits :=
                            sumCredits (Some <$> omap coursedC entries) |}).
      { rewrite coursedSemester_unfold. cbv zeta.
        destruct (omap coursedC entries) as [|c l]; [by apply elem_of_nil in Hsc|done]. }
      rewrite Hget, Hcoursed. simpl. rewrite Hi. simpl. rewrite Hcs.
      destruct (i <? total)%nat; eexists; split; done. }
    destruct Hget2 as (sem2 & Hsem2 & Hcourses2).
    destruct (extends_get _ _ _ _ Hext Hsem2) as (sem & Hsem & _ & Hpre).
    exists {| StudentPlan.id := "1"; StudentPlan.semesters := semesters |}, sem, sc.
    split; [done|]. split; [by apply get_Some|]. split.
    { eapply elem_of_prefix; [|exact Hpre]. rewrite Hcourses2.
      apply list_elem_of_fmap. by exists sc. }
    split; [done|]. split; [done|].
    simpl. unfold statusOfGrade.
    split; [|split].
    + destruct (JS.geb gradeValue (JS.Num 6)); split; done.
    + destruct (JS.geb gradeValue (JS.Num 6)); split; done.
    + intros Hg. by rewrite (Hzero Hg).
Qed.

End ParseFacts.

(** * The timetable grid *)

(** Settles each [bool_decide] of the goal from the hypotheses. *)
Ltac decide_all :=
  repeat match goal with
  | |- context [bool_decide ?P] =>
      first [ rewrite (bool_decide_eq_true_2 P) by (intuition congruence)
            | rewrite (bool_decide_eq_false_2 P) by (intuition congruence) ]
  end.

Section GridFacts.

Variable TIMETABLE : TIMETABLE.t.

Local Abbreviation slots := (TIMETABLE.TIME_SLOTS TIMETABLE).
Local Abbreviation findIdx := (findIndex TIMETABLE).
Local Abbreviation applyE := (applyEntry TIMETABLE).
Local Abbreviation rows := (rowsPresent TIMETABLE).
Local Abbreviation claims := (covers TIMETABLE).

Implicit Types (schedule : Grid) (course : StudentCourse.t)
  (entry : ScheduleEntry.t) (slotId : string) (day : Z).

Lemma findIndex_from_Some startTime i (l : list TimeSlot.t) k :
  findIndex_from startTime i l = Some k ->
  i <= k /\ exists slot, l !! (k - i) = Some slot /\ TimeSlot.id slot = startTime.
Proof.
  revert i. induction l as [|slot l IH]; intros i; simpl; [done|].
  destruct (String.eqb_spec (TimeSlot.id slot) startTime) as [Heq|Hne].
  - intros [= <-]. split; [done|]. exists slot. by rewrite Nat.sub_diag.
  - intros Hk. destruct (IH _ Hk) as (Hle & slot' & Hl & Hid).
    split; [lia|]. exists slot'. split; [|done].
    by replace (k - i) with (S (k - S i)) by lia.
Qed.

Lemma findIndex_Some startTime k :
  findIdx startTime = Some k ->
  exists slot, slots !! k = Some slot /\ TimeSlot.id slot = startTime.
Proof.
  intros Hk. destruct (findIndex_from_Some _ _ _ _ Hk) as (_ & slot & Hl & Hid).
  exists slot. by rewrite Nat.sub_0_r in Hl.
Qed.

(** **** Reading a cell after a write *)

Lemma cell_setCell schedule slotId day v slotId' day' :
  is_Some (schedule !! slotId) ->
  cell (setCell schedule slotId day v) slotId' day'
  = if bool_decide (slotId' = slotId /\ day' = day) then v
    else cell schedule slotId' day'.
Proof.
  intros [row Hrow]. unfold cell, setCell.
  destruct (decide (slotId' = slotId)) as [->|Hs].
  - rewrite lookup_alter_eq, Hrow. simpl.
    destruct (decide (day' = day)) as [->|Hd].
    + rewrite lookup_insert_eq. by rewrite bool_decide_eq_true_2.
    + rewrite lookup_insert_ne by done. rewrite bool_decide_eq_false_2; [done|].
      by intros [_ ?].
  - rewrite lookup_alter_ne by done. rewrite bool_decide_eq_false_2; [done|].
    by intros [? _].
Qed.

Lemma rowsPresent_setCell schedule slotId day v :
  rows schedule -> rows (setCell schedule slotId day v).
Proof.
  intros Hrows slot Hslot. unfold setCell.
  destruct (decide (slotId = TimeSlot.id slot)) as [->|Hne].
  - rewrite lookup_alter_eq. destruct (Hrows slot Hslot) as [row ->]. by eexists.
  - rewrite lookup_alter_ne by done. by apply Hrows.
Qed.

Lemma rowsPresent_applyEntry course schedule entry :
  rows schedule -> rows (applyE course schedule entry).
Proof.
  intros Hrows. unfold applyEntry.
  destruct (findIdx _); [|done].
  destruct (_ <? _)%nat; [|by apply rowsPresent_setCell].
  destruct (slots !! _); by repeat apply rowsPresent_setCell.
Qed.

Lemma rowsPresent_applyWrites schedule
    (writes : list (StudentCourse.t * ScheduleEntry.t)) :
  rows schedule -> rows (applyWrites TIMETABLE schedule writes).
Proof.
  revert schedule. induction writes as [|w writes IH]; intros schedule Hrows.
  - done.
  - simpl. apply IH. by apply rowsPresent_applyEntry.
Qed.

Lemma cell_applyEntry course schedule entry slotId day :
  rows schedule ->
  cell (applyE course schedule entry) slotId day
  = if claims entry slotId day then Some course else cell schedule slotId day.
Proof.
  intros Hrows. unfold applyEntry, covers.
  destruct (findIdx (ScheduleEntry.startTime entry)) as [k|] eqn:Hk; [|done].
  destruct (findIndex_Some _ _ Hk) as (slot & Hslot & Hid).
  assert (Hrow : is_Some (schedule !! ScheduleEntry.startTime entry)).
  { rewrite <- Hid. apply Hrows. by eapply list_elem_of_lookup_2. }
  destruct (Nat.ltb_spec (k + 1) (length slots)) as [Hlt|Hge].
  - destruct (lookup_lt_is_Some_2 slots (k + 1) Hlt) as [next Hnext].
    rewrite Hnext. simpl.
    rewrite cell_setCell.
    2:{ apply rowsPresent_setCell; [done|]. by eapply list_elem_of_lookup_2. }
    rewrite cell_setCell by done.
    destruct (decide (day = ScheduleEntry.day entry));
      destruct (decide (slotId = ScheduleEntry.startTime entry));
      destruct (decide (slotId = TimeSlot.id next));
      decide_all; done.
  - rewrite (lookup_ge_None_2 slots (k + 1)) by lia. simpl.
    rewrite cell_setCell by done.
    destruct (decide (day = ScheduleEntry.day entry));
      destruct (decide (slotId = ScheduleEntry.startTime entry));
      decide_all; done.
Qed.

(** The last write that claims a cell decides what it holds. *)
Lemma cell_applyWrites schedule
    (writes : list (StudentCourse.t * ScheduleEntry.t)) slotId day :
  rows schedule ->
  cell (applyWrites TIMETABLE schedule writes) slotId day
  = match last (filter (fun w => claims w.2 slotId day = true) writes) with
    | Some w => Some w.1
    | None => cell schedule slotId day
    end.
Proof.
  intros Hrows. induction writes as [|w writes IH] using rev_ind; [done|].
  unfold applyWrites in *. rewrite foldl_snoc, filter_app.
  rewrite cell_applyEntry by (by apply rowsPresent_applyWrites).
  destruct (claims w.2 slotId day) eqn:Hw.
  - rewrite (filter_cons_True (fun w => claims w.2 slotId day = true) _ _ Hw).
    by rewrite filter_nil, last_snoc.
  - rewrite filter_cons_False by (by rewrite Hw).
    by rewrite filter_nil, app_nil_r.
Qed.

(** **** The initial grid *)

Lemma rowsPresent_init : rows (initSchedule TIMETABLE).
Proof.
  unfold rowsPresent, initSchedule.
  generalize (∅ : Grid). induction slots as [|s l IH] using rev_ind; intros g slot.
  - by intros ?%elem_of_nil.
  - rewrite foldl_snoc. intros [Hin| ->%list_elem_of_singleton]%elem_of_app.
    + destruct (decide (TimeSlot.id s = TimeSlot.id slot)) as [->|Hne].
      * rewrite lookup_insert_eq. by eexists.
      * rewrite lookup_insert_ne by done. by apply IH.
    + rewrite lookup_insert_eq. by eexists.
Qed.

Lemma rowsPresent_clear schedule :
  rows schedule -> rows (clearSchedule TIMETABLE schedule).
Proof.
  unfold clearSchedule. revert schedule.
  induction slots as [|s l IH]; intros schedule Hrows; [done|].
  simpl. apply IH. clear IH.
  revert schedule Hrows. induction (seq _ _) as [|d ds IHd]; intros schedule Hrows.
  - done.
  - simpl. apply IHd. by apply rowsPresent_setCell.
Qed.

Lemma blank_init slotId day : cell (initSchedule TIMETABLE) slotId day = None.
Proof.
  unfold initSchedule.
  assert (Hgen : forall g : Grid,
            (forall s d, cell g s d = None) ->
            forall s d, cell (foldl (fun g slot => <[TimeSlot.id slot := ∅]> g) g slots)
                          s d = None).
  { induction slots as [|s l IH]; intros g Hg; [done|].
    simpl. apply IH. intros s' d'. unfold cell.
    destruct (decide (TimeSlot.id s = s')) as [->|Hne].
    - by rewrite lookup_insert_eq.
    - rewrite lookup_insert_ne by done. apply Hg. }
  apply Hgen. intros s d. unfold cell. by rewrite lookup_empty.
Qed.

Lemma blank_setCell schedule slotId day :
  (forall s d, cell schedule s d = None) ->
  forall s d, cell (setCell schedule slotId day None) s d = None.
Proof.
  intros Hblank s d. unfold cell, setCell.
  destruct (decide (s = slotId)) as [->|Hne].
  - rewrite lookup_alter_eq. specialize (Hblank slotId d). unfold cell in Hblank.
    destruct (schedule !! slotId) as [row|]; [|done]. simpl in *.
    destruct (decide (d = day)) as [->|Hd].
    + by rewrite lookup_insert_eq.
    + by rewrite lookup_insert_ne.
  - rewrite lookup_alter_ne by done. apply Hblank.
Qed.

Lemma blank_clear schedule :
  (forall s d, cell schedule s d = None) ->
  forall s d, cell (clearSchedule TIMETABLE schedule) s d = None.
Proof.
  unfold clearSchedule. revert schedule.
  induction slots as [|slot l IH]; intros schedule Hblank; [done|].
  simpl. apply IH. clear IH.
  revert schedule Hblank. induction (seq _ _) as [|d ds IHd]; intros schedule Hblank.
  - done.
  - simpl. apply IHd. by apply blank_setCell.
Qed.

End GridFacts.

Section ScheduleFacts.

Variable TIMETABLE : TIMETABLE.t.
Variable scheduleData : ScheduleData.t.
Variable studentInfo : StudentInfo.t.
Variable professorOverrides : list ProfessorOverride.t.

Local Abbreviation slots := (TIMETABLE.TIME_SLOTS TIMETABLE).
Local Abbreviation courses := (currentCourses studentInfo).
Local Abbreviation overridden := (overriddenCourses professorOverrides).
Local Abbreviation grid :=
  (courseSchedule TIMETABLE scheduleData courses professorOverrides).
Local Abbreviation cleared := (clearSchedule TIMETABLE (initSchedule TIMETABLE)).
Local Abbreviation writes := (scheduleWrites scheduleData courses professorOverrides).
Local Abbreviation defaults := (defaultWrites scheduleData courses professorOverrides).
Local Abbreviation overrides := (overrideWrites courses professorOverrides).
Local Abbreviation after := (applyWrites TIMETABLE).
Local Abbreviation claims := (covers TIMETABLE).

Lemma currentCourses_in_progress (course : StudentCourse.t) :
  course ∈ courses -> StudentCourse.status course = IN_PROGRESS.
Proof.
  unfold currentCourses. destruct (StudentInfo.currentPlan studentInfo).
  - by intros [? _]%list_elem_of_filter.
  - by intros ?%elem_of_nil.
Qed.

Lemma applyEntries_writes (course : StudentCourse.t) (schedule : Grid)
    (entries : list ScheduleEntry.t) :
  foldl (applyEntry TIMETABLE course) schedule entries
  = after schedule (pair course <$> entries).
Proof.
  revert schedule. induction entries as [|e entries IH]; intros schedule; [done|].
  simpl. by rewrite IH.
Qed.

Lemma applyWrites_app (schedule : Grid)
    (w1 w2 : list (StudentCourse.t * ScheduleEntry.t)) :
  after schedule (w1 ++ w2) = after (after schedule w1) w2.
Proof. unfold applyWrites. by rewrite foldl_app. Qed.

(** The grid is the cleared grid after the writes of the two loops. *)
Lemma courseSchedule_writes : grid = after cleared writes.
Proof.
  unfold courseSchedule, scheduleWrites. rewrite applyWrites_app.
  assert (Hd : forall (cs : list StudentCourse.t) (g : Grid),
            foldl (applyDefault TIMETABLE scheduleData professorOverrides) g cs
            = after g (defaultWrites scheduleData cs professorOverrides)).
  { induction cs as [|c cs IH]; intros g; [done|].
    simpl. rewrite IH. unfold defaultWrites at 2. simpl.
    rewrite applyWrites_app. f_equal. unfold applyDefault.
    destruct (bool_decide _); [done|].
    destruct (_ !! _); [apply applyEntries_writes|done]. }
  assert (Ho : forall (os : list ProfessorOverride.t) (g : Grid),
            foldl (applyOverride TIMETABLE courses) g os
            = after g (overrideWrites courses os)).
  { induction os as [|o os IH]; intros g; [done|].
    simpl. rewrite IH. unfold overrideWrites at 2. simpl.
    rewrite applyWrites_app. f_equal. unfold applyOverride.
    destruct (find _ _); [apply applyEntries_writes|done]. }
  by rewrite Hd, Ho.
Qed.

Lemma rowsPresent_cleared : rowsPresent TIMETABLE cleared.
Proof. apply rowsPresent_clear, rowsPresent_init. Qed.

Lemma cell_cleared slotId day : cell cleared slotId day = None.
Proof. apply blank_clear, blank_init. Qed.

(** Each cell of the grid holds the course of the last write claiming it. *)
Lemma cell_courseSchedule slotId day :
  cell grid slotId day
  = fst <$> last (filter (fun w => claims w.2 slotId day = true) writes).
Proof.
  rewrite courseSchedule_writes, cell_applyWrites by apply rowsPresent_cleared.
  rewrite cell_cleared. by destruct (last _).
Qed.

Lemma defaultWrites_elem (course : StudentCourse.t) (entry : ScheduleEntry.t) :
  (course, entry) ∈ defaults
  <-> course ∈ courses
      /\ (courseKey course ∉ overridden)
      /\ exists courseTimes,
           ScheduleData.courseTimes scheduleData !! courseKey course = Some courseTimes
           /\ entry ∈ courseTimes.
Proof.
  unfold defaultWrites. rewrite elem_of_flat_map. split.
  - intros (c & Hin & Hc). fold (courseKey c) in Hin.
    case_bool_decide as Hov; [by apply elem_of_nil in Hin|].
    destruct (_ !! courseKey c) as [times|] eqn:Ht; [|by apply elem_of_nil in Hin].
    apply list_elem_of_fmap in Hin as (e & [= -> ->] & He).
    split; [done|]. split; [done|]. by exists times.
  - intros (Hc & Hov & times & Ht & He). exists course. split; [|done].
    fold (courseKey course). rewrite bool_decide_eq_false_2 by done. rewrite Ht.
    apply list_elem_of_fmap. by exists entry.
Qed.

Lemma overrideWrites_elem (course : StudentCourse.t) (entry : ScheduleEntry.t) :
  (course, entry) ∈ overrides
  <-> exists override,
        override ∈ professorOverrides
        /\ find (fun c => bool_decide (courseKey c
                                       = ProfessorOverride.courseId override))
                courses = Some course
        /\ entry ∈ ProfessorOverride.schedule override.
Proof.
  unfold overrideWrites. rewrite elem_of_flat_map. split.
  - intros (o & Hin & Ho). exists o. split; [done|].
    unfold courseKey. destruct (find _ _) as [c|]; [|by apply elem_of_nil in Hin].
    apply list_elem_of_fmap in Hin as (e & [= -> ->] & He). done.
  - intros (o & Ho & Hfind & He). exists o. split; [|done].
    unfold courseKey in Hfind. rewrite Hfind.
    apply list_elem_of_fmap. by exists entry.
Qed.

Lemma found_course_key (override : ProfessorOverride.t) (course : StudentCourse.t) :
  find (fun c => bool_decide (courseKey c = ProfessorOverride.courseId override))
       courses = Some course ->
  course ∈ courses /\ courseKey course = ProfessorOverride.courseId override.
Proof.
  intros Hfind. apply find_some in Hfind as [Hin Hkey].
  split; [by apply list_elem_of_In|]. by apply bool_decide_eq_true in Hkey.
Qed.

Lemma override_key_overridden (override : ProfessorOverride.t) :
  override ∈ professorOverrides ->
  ProfessorOverride.courseId override ∈ overridden.
Proof.
  intros Ho. unfold overriddenCourses.
  apply elem_of_list_to_set, list_elem_of_fmap. by exists override.
Qed.

Lemma filter_none_last {A : Type} (P : A -> Prop) `{!forall x, Decision (P x)}
    (l1 l2 : list A) (x : A) :
  P x -> Forall (fun y => ~ P y) l2 ->
  last (filter P (l1 ++ x :: l2)) = Some x.
Proof.
  intros Hx Hl2. rewrite filter_app, filter_cons_True by done.
  assert (filter P l2 = []) as ->.
  { induction Hl2 as [|y l2 Hy _ IH]; [done|]. by rewrite filter_cons_False. }
  apply last_snoc.
Qed.


(** C3.  Override precedence: when the course id of X has an active
    override, no default entry of a course with that id is processed, and
    every cell of the grid that holds a course with that id is claimed by an
    entry of an override for that id. *)
Theorem override_precedence (x : StudentCourse.t) :
  courseKey x ∈ overridden ->
  Forall (fun w => courseKey w.1 <> courseKey x) defaults
  /\ forall slotId day c,
       cell grid slotId day = Some c ->
       courseKey c = courseKey x ->
       exists override entry,
         override ∈ professorOverrides
         /\ ProfessorOverride.courseId override = courseKey x
         /\ entry ∈ ProfessorOverride.schedule override
         /\ claims entry slotId day = true.
Proof.
  intros Hx.
  assert (Hdef : forall c e, (c, e) ∈ defaults -> courseKey c <> courseKey x).
  { intros c e (_ & Hov & _)%defaultWrites_elem Heq. by rewrite Heq in Hov. }
  split.
  - apply Forall_forall. intros [c e]. apply Hdef.
  - intros slotId day c Hcell Hkey. rewrite cell_courseSchedule in Hcell.
    destruct (last _) as [[c' e]|] eqn:Hlast; [|done].
    injection Hcell as ->.
    apply last_Some_elem_of, list_elem_of_filter in Hlast as [Hclaim Hin].
    apply elem_of_app in Hin as [Hin|Hin]; [by apply Hdef in Hin|].
    apply overrideWrites_elem in Hin as (o & Ho & Hfind & He).
    apply found_course_key in Hfind as [_ Hk].
    exists o, e. split; [done|]. split; [congruence|]. done.
Qed.

(** C7.  Last write wins: a cell claimed by a write that no later write
    claims holds the course of that write, whatever was written there
    before; and a cell claimed by an entry of an override whose course is
    found holds the course of such an entry, never a default-scheduled
    one. *)
Theorem last_write_wins :
  (forall before course entry later slotId day,
     writes = before ++ (course, entry) :: later ->
     claims entry slotId day = true ->
     Forall (fun w => claims w.2 slotId day <> true) later ->
     cell grid slotId day = Some course)
  /\ (forall w slotId day,
        w ∈ overrides ->
        claims w.2 slotId day = true ->
        exists w', w' ∈ overrides
          /\ claims w'.2 slotId day = true
          /\ cell grid slotId day = Some w'.1
          /\ courseKey w'.1 ∈ overridden
          /\ Forall (fun d => courseKey d.1 <> courseKey w'.1) defaults).
Proof.
  split.
  - intros before course entry later slotId day Hw Hclaim Hlater.
    rewrite cell_courseSchedule, Hw.
    by rewrite (filter_none_last (fun w => claims w.2 slotId day = true)
                  before later (course, entry) Hclaim Hlater).
  - intros w slotId day Hw Hclaim.
    assert (Hne : filter (fun w => claims w.2 slotId day = true) overrides <> []).
    { intros Hnil. by eapply (filter_nil_not_elem_of _ _ w Hnil). }
    apply last_is_Some in Hne as [[c e] Hlast].
    exists (c, e).
    pose proof Hlast as Hin.
    apply last_Some_elem_of, list_elem_of_filter in Hin as [Hc Hin].
    assert (Hov : courseKey c ∈ overridden).
    { apply overrideWrites_elem in Hin as (o & Ho & Hfind & _).
      apply found_course_key in Hfind as [_ ->]. by apply override_key_overridden. }
    split; [done|]. split; [done|]. split; [|split; [done|]].
    + rewrite cell_courseSchedule. unfold scheduleWrites.
      rewrite filter_app, last_app, Hlast. done.
    + apply Forall_forall. intros [c' e'] (_ & Hn & _)%defaultWrites_elem Heq.
      simpl in Heq. by rewrite Heq in Hn.
Qed.

End ScheduleFacts.

(** * [handleProfessorSelect] *)

Section SplitFacts.

Implicit Types (sep c : ascii) (a b s : string).










End SplitFacts.

Section OverrideFacts.

Variable TIMETABLE : TIMETABLE.t.
Variable scheduleData : ScheduleData.t.

(** The entry of a listed day: none for a name that the day map lacks. *)
Local Abbreviation entryOf start :=
  (fun dayName =>
     (fun dayIndex => {| ScheduleEntry.day := dayIndex;
                         ScheduleEntry.startTime := start |})
       <$> TIMETABLE.DAYS_MAP TIMETABLE !! dayName).




End OverrideFacts.

(** * Further properties of [calculateStudentPositions] *)

Section PositionsMore.

Variable COURSE_BOX : COURSE_BOX.t.
Variable PHASE : PHASE.t.
Variable phaseWidth : Q.

Local Abbreviation calc := (calculateStudentPositions COURSE_BOX PHASE phaseWidth).
Local Abbreviation after := (stateAfter COURSE_BOX PHASE phaseWidth).
Local Abbreviation addSem := (addSemester COURSE_BOX PHASE phaseWidth).
Local Abbreviation reals := (coursePositions COURSE_BOX phaseWidth).
Local Abbreviation ghosts := (ghostPositions COURSE_BOX PHASE phaseWidth).
Local Abbreviation capacity := (PHASE.BOXES_PER_COLUMN PHASE).
Local Abbreviation positions := PositionsState.positions.
Local Abbreviation courseMap := PositionsState.studentCourseMap.
Local Abbreviation spacing := (COURSE_BOX.SPACING_Y COURSE_BOX).

(** The [y] of the box in slot [j] of a column. *)
Local Abbreviation rowY := (fun j : nat => (of_index j * spacing + spacing)%Q).

Lemma coursePositions_from_slot si j0 (l : list (option StudentCourse.t)) p :
  p ∈ coursePositions_from COURSE_BOX phaseWidth si j0 l ->
  exists j c, j0 <= j < j0 + length l /\ l !! (j - j0) = Some (Some c)
    /\ p = coursePosition COURSE_BOX phaseWidth si j c.
Proof.
  revert j0. induction l as [|[c|] l IH]; intros j0; simpl.
  - by intros ?%elem_of_nil.
  - intros [->|Hp]%elem_of_cons.
    + exists j0, c. rewrite Nat.sub_diag. split; [lia|done].
    + destruct (IH _ Hp) as (j & c' & Hj & Hl & ->). exists j, c'.
      split; [lia|]. split; [|done].
      by replace (j - j0) with (S (j - S j0)) by lia.
  - intros Hp. destruct (IH _ Hp) as (j & c' & Hj & Hl & ->). exists j, c'.
    split; [lia|]. split; [|done].
    by replace (j - j0) with (S (j - S j0)) by lia.
Qed.

Lemma ghostPositions_slot si sem p :
  p ∈ ghosts si sem ->
  exists j, length (StudentSemester.courses sem) <= j < capacity
    /\ p = ghostPosition COURSE_BOX phaseWidth si sem j.
Proof.
  unfold ghostPositions. intros (j & -> & Hj)%list_elem_of_fmap.
  apply elem_of_seq in Hj. exists j. split; [lia|done].
Qed.

(** X1.  Uniform boxes: every position of the result, of a course or a
    ghost, has the width [boxWidth] and the height [COURSE_BOX.HEIGHT]; its
    [x] is that of the column of a semester slot [i] of the plan and its [y]
    that of a row [j]: [j * SPACING_Y + SPACING_Y]. *)
Theorem positions_uniform (plan : StudentPlan.t) (p : CoursePosition.t) :
  p ∈ positions (calc plan) ->
  CoursePosition.width p = boxWidth COURSE_BOX phaseWidth
  /\ CoursePosition.height p = COURSE_BOX.HEIGHT COURSE_BOX
  /\ exists i j,
       i < length (StudentPlan.semesters plan)
       /\ CoursePosition.x p
          = (of_index i * phaseWidth + xOffset COURSE_BOX phaseWidth)%Q
       /\ CoursePosition.y p = rowY j.
Proof.
  unfold calculateStudentPositions.
  induction (StudentPlan.semesters plan) as [|[sem|] l IH] using rev_ind.
  - by intros ?%elem_of_nil.
  - rewrite forEach_snoc, addSemester_positions, length_app. simpl.
    intros [Hp|[Hp|Hp]%elem_of_app]%elem_of_app.
    + destruct (IH Hp) as (Hw & Hh & i & j & Hi & Hx & Hy).
      split; [done|]. split; [done|]. exists i, j. split; [lia|done].
    + apply coursePositions_from_slot in Hp as (j & c & _ & _ & ->).
      split; [done|]. split; [done|]. exists (length l), j. split; [lia|done].
    + apply ghostPositions_slot in Hp as (j & _ & ->).
      split; [done|]. split; [done|]. exists (length l), j. split; [lia|done].
  - rewrite forEach_snoc_hole, length_app. simpl. intros Hp.
    destruct (IH Hp) as (Hw & Hh & i & j & Hi & Hx & Hy).
    split; [done|]. split; [done|]. exists i, j. split; [lia|done].
Qed.

(** X2.  A full column gets no ghost: for a semester with at least
    [BOXES_PER_COLUMN] course slots only the positions of its courses are
    added, none of them a ghost and none dropped. *)
Theorem full_column_no_ghost (plan : StudentPlan.t) (i : nat)
    (sem : StudentSemester.t) :
  StudentPlan.semesters plan !! i = Some (Some sem) ->
  capacity <= length (StudentSemester.courses sem) ->
  positions (after plan (S i)) = positions (after plan i) ++ reals i sem
  /\ Forall (fun p => CoursePosition.isGhost p = None) (reals i sem)
  /\ length (reals i sem) = length (coursesOf sem).
Proof.
  intros Hi Hk. split; [|split].
  - rewrite (stateAfter_S _ _ _ _ _ _ Hi), addSemester_positions.
    unfold ghostPositions.
    replace (capacity - length (StudentSemester.courses sem)) with 0 by lia.
    simpl. by rewrite app_nil_r.
  - apply coursePositions_from_real.
  - apply coursePositions_from_length.
Qed.

Lemma filter_key_fresh (l : list StudentCourse.t) (key : string) :
  key ∉ courseKey <$> l -> filter (fun c' => courseKey c' = key) l = [].
Proof.
  induction l as [|a l IH]; intros Hk; [done|].
  rewrite fmap_cons in Hk. apply not_elem_of_cons in Hk as [Hne Hk].
  rewrite filter_cons_False by congruence. by apply IH.
Qed.

Lemma filter_key_unique (l : list StudentCourse.t) (c : StudentCourse.t) :
  NoDup (courseKey <$> l) -> c ∈ l ->
  filter (fun c' => courseKey c' = courseKey c) l = [c].
Proof.
  induction l as [|a l IH]; intros Hnd Hc; [by apply elem_of_nil in Hc|].
  rewrite fmap_cons in Hnd. apply NoDup_cons in Hnd as [Ha Hnd].
  apply elem_of_cons in Hc as [->|Hc].
  - rewrite filter_cons_True by done. f_equal. by apply filter_key_fresh.
  - rewrite filter_cons_False; [by apply IH|].
    intros Heq. apply Ha. rewrite Heq. apply list_elem_of_fmap. by exists c.
Qed.

Lemma foldl_insert_size (l : list StudentCourse.t) :
  NoDup (courseKey <$> l) ->
  size (foldl (fun m c => <[courseKey c := c]> m)
              (∅ : gmap string StudentCourse.t) l) = length l.
Proof.
  induction l as [|c l IH] using rev_ind; intros Hnd; [done|].
  rewrite fmap_app in Hnd. apply NoDup_app in Hnd as (Hl & Hfresh & _).
  rewrite foldl_snoc, length_app, map_size_insert_None; [rewrite IH by done; simpl; lia|].
  rewrite foldl_insert_lookup, lookup_empty.
  destruct (last _) as [c'|] eqn:Hlast; [|done].
  apply last_Some_elem_of, list_elem_of_filter in Hlast as [Hk Hin].
  exfalso. apply (Hfresh (courseKey c')).
  - apply list_elem_of_fmap. by exists c'.
  - rewrite Hk. simpl. apply list_elem_of_here.
Qed.

(** X3.  Looking up what was stored: when the courses of the plan have
    pairwise distinct course ids, [courseMap] gives each of them back under
    its id and has as many entries as the plan has courses. *)
Theorem courseMap_lookup_unique (plan : StudentPlan.t) :
  NoDup (courseKey <$> realCourses plan) ->
  (forall c, c ∈ realCourses plan -> courseMap (calc plan) !! courseKey c = Some c)
  /\ size (courseMap (calc plan)) = length (realCourses plan).
Proof.
  intros Hnd. unfold calculateStudentPositions. rewrite forEach_courseMap.
  fold (planSemesters plan). fold (realCourses plan). split.
  - intros c Hc. by rewrite foldl_insert_lookup, filter_key_unique.
  - by apply foldl_insert_size.
Qed.





End PositionsMore.

(** * Further properties of [parseStudentData] *)

Section ParseMore.

Variable PHASE : PHASE.t.
Variable getCourseInfo : string -> option Course.t.
Variable parseFloat : string -> JS.number.

Local Abbreviation total := (PHASE.TOTAL_SEMESTERS PHASE).
Local Abbreviation coursedC := (coursedCourse getCourseInfo parseFloat).
Local Abbreviation coursedS := (coursedSemester getCourseInfo parseFloat).
Local Abbreviation addPlan := (addPlanSemester PHASE getCourseInfo).
Local Abbreviation pushP := (pushPlanned getCourseInfo).
Local Abbreviation planned := (plannedFor PHASE getCourseInfo).
Local Abbreviation base := (baseSemester PHASE getCourseInfo parseFloat).
Local Abbreviation parseSems := (parseSemesters PHASE getCourseInfo parseFloat).
Local Abbreviation parse := (parseStudentData PHASE getCourseInfo parseFloat).

Implicit Types (plan : list (list RawStudentData.entry))
  (entries : list RawStudentData.entry)
  (semesters : list (option StudentSemester.t)).

(** The invariant of a stored semester: its credits are those of its
    courses. *)
Local Abbreviation credited :=
  (fun sem : StudentSemester.t =>
     StudentSemester.totalCredits sem = sumCredits (StudentSemester.courses sem)).

Lemma pushPlanned_app status (acc : list (option StudentCourse.t)) entries :
  foldl (pushP status) acc entries = acc ++ foldl (pushP status) [] entries.
Proof.
  revert acc. induction entries as [|[[code cls] g] entries IH] using rev_ind;
    intros acc.
  - by rewrite app_nil_r.
  - rewrite !foldl_snoc, IH. unfold pushPlanned at 1 3.
    destruct (getCourseInfo code); [by rewrite app_assoc|done].
Qed.

Lemma plannedFor_nil cur i : planned cur [] i = [].
Proof. unfold plannedFor. by destruct (_ || _). Qed.

Lemma plannedFor_snoc_other cur plan entries i :
  (Z.of_nat i + 1 - cur <> Z.of_nat (length plan)
   \/ Z.of_nat total < Z.of_nat i + 1)%Z ->
  planned cur (plan ++ [entries]) i = planned cur plan i.
Proof.
  intros Hi. unfold plannedFor.
  destruct (Z.ltb_spec (Z.of_nat i + 1 - cur) 0) as [|Hp]; [done|].
  destruct (Z.ltb_spec (Z.of_nat total) (Z.of_nat i + 1)) as [|Ht]; [done|].
  simpl. destruct Hi as [Hi|Hi]; [|lia].
  destruct (Nat.lt_ge_cases (Z.to_nat (Z.of_nat i + 1 - cur)) (length plan)).
  - by rewrite lookup_app_l.
  - rewrite (lookup_ge_None_2 plan) by done.
    rewrite lookup_ge_None_2; [done|]. rewrite length_app. simpl. lia.
Qed.

(** What the plan entries do to the array they find. *)
Lemma plan_pass_courses cur plan semesters2 semesters3 :
  JS.forEach (addPlan cur) (Some <$> plan) (Some semesters2) = Some semesters3 ->
  forall i s2, JS.get semesters2 i = Some s2 ->
    exists s3, JS.get semesters3 i = Some s3
      /\ StudentSemester.number s3 = StudentSemester.number s2
      /\ StudentSemester.courses s3
         = StudentSemester.courses s2 ++ planned cur plan i
      /\ (credited s2 -> credited s3).
Proof.
  revert semesters3. induction plan as [|x l IH] using rev_ind; intros semesters3.
  - intros [= <-] i s2 Hs2. exists s2. rewrite plannedFor_nil, app_nil_r. done.
  - rewrite fmap_app. simpl. rewrite forEach_snoc, length_fmap.
    destruct (JS.forEach _ (Some <$> l) _) as [mid|] eqn:Hmid; [|done].
    specialize (IH _ eq_refl). unfold addPlanSemester. simpl.
    destruct (Z.ltb_spec (Z.of_nat total) (cur + Z.of_nat (length l))) as [Hbeyond|Hin].
    { intros [= <-] i s2 Hs2. destruct (IH i s2 Hs2) as (s3 & H1 & H2 & H3 & H4).
      exists s3. rewrite plannedFor_snoc_other; [done|].
      destruct (decide (Z.of_nat i + 1 - cur = Z.of_nat (length l))%Z); [right|left]; lia. }
    destruct (getZ mid _) as [target|] eqn:Ht; simpl; [|done].
    apply getZ_Some in Ht as [Hpos Ht].
    set (t := Z.to_nat (cur + Z.of_nat (length l) - 1)) in *.
    intros [= <-] i s2 Hs2. destruct (IH i s2 Hs2) as (s3 & H1 & H2 & H3 & H4).
    destruct (decide (i = t)) as [->|Hne].
    + apply get_Some in H1. rewrite H1 in Ht. injection Ht as ->.
      eexists. split; [|split; [|split]].
      * apply get_Some. apply list_lookup_insert_eq. by eapply lookup_lt_Some.
      * done.
      * simpl. rewrite pushPlanned_app, H3, <- app_assoc. f_equal.
        assert (Hold : planned cur l t = []).
        { unfold plannedFor.
          destruct (_ || _); [done|].
          rewrite lookup_ge_None_2; [done|]. lia. }
        rewrite Hold. simpl. unfold plannedFor.
        destruct (Z.ltb_spec (Z.of_nat t + 1 - cur) 0); [lia|].
        destruct (Z.ltb_spec (Z.of_nat total) (Z.of_nat t + 1)); [lia|]. simpl.
        replace (Z.to_nat (Z.of_nat t + 1 - cur)) with (length l) by lia.
        rewrite list_lookup_middle by done.
        destruct (Z.eqb_spec (cur + Z.of_nat (length l)) cur),
                 (Z.eqb_spec (Z.of_nat t + 1 - cur) 0); (done || lia).
      * done.
    + exists s3. split; [|split; [done|split; [|done]]].
      * apply get_Some. rewrite list_lookup_insert_ne by done. by apply get_Some.
      * rewrite plannedFor_snoc_other; [done|]. left. lia.
Qed.

Lemma forEach_from_raised cur (l : list (option (list RawStudentData.entry))) i :
  JS.forEach_from (addPlan cur) i l None = None.
Proof. revert i. induction l as [|[x|] l IH]; intros i; simpl; auto. Qed.

(** The array before the plan entries, and how the result comes from it. *)
Lemma parseSemesters_unfold (jsonData : RawStudentData.t) :
  let coursed := default [] (RawStudentData.coursed jsonData) in
  exists semesters2,
    (forall i, JS.get semesters2 i = base coursed i)
    /\ parseSems jsonData
       = match RawStudentData.plan jsonData with
         | Some plan =>
             JS.forEach (addPlan (RawStudentData.currentSemester jsonData))
                        (Some <$> plan) (Some semesters2)
         | None => Some semesters2
         end.
Proof.
  intros coursed. unfold parseSemesters.
  set (semesters1 := match RawStudentData.coursed jsonData with
                     | Some c => JS.forEach _ (Some <$> c) []
                     | None => []
                     end).
  assert (Hget1 : forall i, JS.get semesters1 i = coursed !! i ≫= coursedS i).
  { subst semesters1 coursed. destruct (RawStudentData.coursed jsonData) as [c|]; simpl.
    - apply coursed_pass.
    - intros i. by destruct i. }
  destruct (fill_pass semesters1 total) as [_ Hget2].
  eexists. split; [|reflexivity].
  intros i. rewrite Hget2, Hget1. unfold baseSemester. by destruct (_ <? _)%nat.
Qed.

Lemma baseSemester_facts (coursed : list (list RawStudentData.entry)) i s2 :
  base coursed i = Some s2 ->
  StudentSemester.number s2 = (Z.of_nat i + 1)%Z
  /\ credited s2
  /\ StudentSemester.courses s2
     = Some <$> omap coursedC (default [] (coursed !! i)).
Proof.
  unfold baseSemester.
  assert (Hstored : forall s, coursed !! i ≫= coursedS i = Some s ->
            StudentSemester.number s = (Z.of_nat i + 1)%Z /\ credited s
            /\ StudentSemester.courses s
               = Some <$> omap coursedC (default [] (coursed !! i))).
  { intros s. destruct (coursed !! i) as [entries|]; simpl; [|done].
    rewrite coursedSemester_unfold. cbv zeta.
    destruct (0 <? length _)%nat; [|done]. intros [= <-]. simpl.
    split; [lia|done]. }
  destruct (coursed !! i ≫= coursedS i) as [s|] eqn:Hs.
  - destruct (i <? total)%nat; simpl; intros [= <-]; by apply Hstored.
  - destruct (i <? total)%nat; simpl; [|done]. intros [= <-]. simpl.
    split; [done|]. split; [done|].
    destruct (coursed !! i) as [entries|]; simpl in *; [|done].
    rewrite coursedSemester_unfold in Hs. cbv zeta in Hs.
    destruct (omap coursedC entries); [done|]. done.
Qed.

(** The slots of the parsed plan. *)
Lemma parsed_semester (jsonData : RawStudentData.t) semesters i :
  parseSems jsonData = Some semesters ->
  let coursed := default [] (RawStudentData.coursed jsonData) in
  let plan := default [] (RawStudentData.plan jsonData) in
  match base coursed i with
  | Some s2 =>
      exists sem, semesters !! i = Some (Some sem)
        /\ StudentSemester.number sem = (Z.of_nat i + 1)%Z
        /\ credited sem
        /\ StudentSemester.courses sem
           = (Some <$> omap coursedC (default [] (coursed !! i)))
               ++ planned (RawStudentData.currentSemester jsonData) plan i
  | None => JS.get semesters i = None
  end.
Proof.
  intros Hparse coursed plan.
  destruct (parseSemesters_unfold jsonData) as (s2s & Hget & Hunf).
  rewrite Hparse in Hunf. symmetry in Hunf. fold coursed in Hget.
  assert (Hpass : JS.forEach (addPlan (RawStudentData.currentSemester jsonData))
                    (Some <$> plan) (Some s2s) = Some semesters).
  { subst plan. by destruct (RawStudentData.plan jsonData). }
  destruct (base coursed i) as [s2|] eqn:Hbase.
  - destruct (baseSemester_facts _ _ _ Hbase) as (Hn & Hc & Hcs).
    rewrite <- Hget in Hbase.
    destruct (plan_pass_courses _ _ _ _ Hpass i s2 Hbase) as (s3 & H1 & H2 & H3 & H4).
    exists s3. split; [by apply get_Some|]. split; [congruence|]. split; [auto|].
    by rewrite H3, Hcs.
  - rewrite <- Hget in Hbase. apply plan_pass_extends in Hpass.
    unfold JS.get in *.
    destruct (s2s !! i) as [o|] eqn:Hi.
    + destruct (Forall2_lookup_l _ _ _ _ _ Hpass Hi) as (o' & -> & HP).
      simpl in *. subst o. by destruct o'.
    + apply Forall2_length in Hpass. apply lookup_ge_None in Hi.
      rewrite lookup_ge_None_2; [done|]. lia.
Qed.

Lemma pushPlanned_elem status entries (x : option StudentCourse.t) :
  x ∈ foldl (pushP status) [] entries ->
  exists sc code cls g courseInfo,
    x = Some sc /\ (code, cls, g) ∈ entries
    /\ getCourseInfo code = Some courseInfo
    /\ sc = {| StudentCourse.spread := courseInfo;
               StudentCourse.course := courseInfo;
               StudentCourse.status := status;
               StudentCourse.grade := None;
               StudentCourse.class := classOf cls |}.
Proof.
  induction entries as [|[[code cls] g] entries IH] using rev_ind.
  - by intros ?%elem_of_nil.
  - rewrite foldl_snoc. unfold pushPlanned at 1.
    destruct (getCourseInfo code) as [ci|] eqn:Hci.
    + intros [Hx|Hx%list_elem_of_singleton]%elem_of_app.
      * destruct (IH Hx) as (sc & code' & cls' & g' & ci' & -> & Hin & Hci' & ->).
        eexists _, code', cls', g', ci'. split; [done|].
        split; [apply elem_of_app; by left|done].
      * eexists _, code, cls, g, ci. split; [exact Hx|].
        split; [apply elem_of_app; right; apply list_elem_of_here|done].
    + intros Hx. destruct (IH Hx) as (sc & code' & cls' & g' & ci' & -> & Hin & Hci' & ->).
      eexists _, code', cls', g', ci'. split; [done|].
      split; [apply elem_of_app; by left|done].
Qed.

Lemma plannedFor_elem cur plan i (x : option StudentCourse.t) :
  x ∈ planned cur plan i ->
  exists sc code courseInfo,
    x = Some sc /\ getCourseInfo code = Some courseInfo
    /\ StudentCourse.spread sc = courseInfo /\ StudentCourse.course sc = courseInfo
    /\ StudentCourse.grade sc = None
    /\ StudentCourse.status sc
       = (if (Z.of_nat i + 1 - cur =? 0)%Z then IN_PROGRESS else PLANNED).
Proof.
  unfold plannedFor. destruct (_ || _); [by intros ?%elem_of_nil|].
  destruct (plan !! _) as [entries|]; [|by intros ?%elem_of_nil].
  intros (sc & code & cls & g & ci & -> & _ & Hci & ->)%pushPlanned_elem.
  eexists. exists code, ci. split; [reflexivity|]. by repeat split.
Qed.

Lemma coursed_elem entries (x : option StudentCourse.t) :
  x ∈ Some <$> omap coursedC entries ->
  exists sc code courseInfo,
    x = Some sc /\ getCourseInfo code = Some courseInfo
    /\ StudentCourse.spread sc = courseInfo /\ StudentCourse.course sc = courseInfo
    /\ (StudentCourse.status sc = COMPLETED \/ StudentCourse.status sc = FAILED).
Proof.
  intros (sc & -> & Hsc)%list_elem_of_fmap.
  apply list_elem_of_omap in Hsc as ([[code cls] g] & _ & Hsc).
  unfold coursedCourse, pushCoursed in Hsc.
  destruct (getCourseInfo code) as [ci|] eqn:Hci; [|done].
  injection Hsc as <-. eexists. exists code, ci. split; [reflexivity|].
  repeat (split; [done|]).
  simpl. unfold statusOfGrade. destruct (JS.geb _ _); auto.
Qed.

(** Every slot of the course list of a parsed semester. *)
Lemma parsed_slot_courses (jsonData : RawStudentData.t) semesters i sem :
  parseSems jsonData = Some semesters ->
  semesters !! i = Some (Some sem) ->
  StudentSemester.number sem = (Z.of_nat i + 1)%Z
  /\ credited sem
  /\ StudentSemester.courses sem
     = (Some <$> omap coursedC
                   (default [] (default [] (RawStudentData.coursed jsonData) !! i)))
         ++ planned (RawStudentData.currentSemester jsonData)
                    (default [] (RawStudentData.plan jsonData)) i
  /\ forall x, x ∈ StudentSemester.courses sem ->
       exists sc code ci, x = Some sc /\ getCourseInfo code = Some ci
         /\ StudentCourse.spread sc = ci /\ StudentCourse.course sc = ci.
Proof.
  intros Hsems Hi.
  pose proof (parsed_semester jsonData semesters i Hsems) as Hslot. cbv zeta in Hslot.
  destruct (base _ i) as [s2|].
  2:{ apply get_Some in Hi. congruence. }
  destruct Hslot as (sem' & Hi' & Hn & Hc & Hcs).
  rewrite Hi in Hi'. injection Hi' as <-.
  split; [done|]. split; [done|]. split; [done|].
  intros x. rewrite Hcs. intros [Hx|Hx]%elem_of_app.
  - apply coursed_elem in Hx as (sc & code & ci & -> & ? & ? & ? & _).
    by exists sc, code, ci.
  - apply plannedFor_elem in Hx as (sc & code & ci & -> & ? & ? & ? & _).
    by exists sc, code, ci.
Qed.

Lemma parsed_courses_dense (jsonData : RawStudentData.t) semesters :
  parseSems jsonData = Some semesters ->
  Forall (fun sem => Forall is_Some (StudentSemester.courses sem))
         (omap id semesters).
Proof.
  intros Hsems. apply Forall_forall. intros sem Hsem.
  apply list_elem_of_omap in Hsem as (o & Ho & Hid). simpl in Hid. subst o.
  apply list_elem_of_lookup in Ho as [i Hi].
  destruct (parsed_slot_courses _ _ _ _ Hsems Hi) as (_ & _ & _ & Hall).
  apply Forall_forall. intros x Hx.
  destruct (Hall x Hx) as (sc & _ & _ & -> & _). by eexists.
Qed.

(** X5.  What the parser returns is well formed: the semester at index [i]
    has number [i + 1], its [totalCredits] is the sum of the credits of its
    courses, every slot of its course list holds a course, and each course
    carries a course of the curriculum, the very one its fields were copied
    from. *)
Theorem parsed_plan_well_formed (jsonData : RawStudentData.t)
    (info : StudentInfo.t) (plan : StudentPlan.t) (i : nat)
    (sem : StudentSemester.t) :
  parse jsonData = Some info ->
  StudentInfo.currentPlan info = Some plan ->
  StudentPlan.semesters plan !! i = Some (Some sem) ->
  StudentSemester.number sem = (Z.of_nat i + 1)%Z
  /\ StudentSemester.totalCredits sem = sumCredits (StudentSemester.courses sem)
  /\ Forall is_Some (StudentSemester.courses sem)
  /\ forall sc, sc ∈ coursesOf sem ->
       StudentCourse.spread sc = StudentCourse.course sc
       /\ exists code, getCourseInfo code = Some (StudentCourse.course sc).
Proof.
  intros Hparse Hplan Hi.
  destruct (parseStudentData_plan _ _ _ _ _ Hparse) as (semesters & Hsems & Hcur).
  rewrite Hcur in Hplan. injection Hplan as <-. simpl in Hi.
  destruct (parsed_slot_courses _ _ _ _ Hsems Hi) as (Hn & Hc & _ & Hall).
  split; [done|]. split; [done|]. split.
  - apply Forall_forall. intros x Hx.
    destruct (Hall x Hx) as (sc & _ & _ & -> & _). by eexists.
  - intros sc Hsc. unfold coursesOf in Hsc.
    apply list_elem_of_omap in Hsc as (x & Hx & Hid). simpl in Hid. subst x.
    destruct (Hall _ Hx) as (sc' & code & ci & [= <-] & Hci & Hsp & Hco).
    split; [congruence|]. exists code. congruence.
Qed.

(** X6.  The courses of a parsed semester: within [TOTAL_SEMESTERS] the
    semester at index [i] exists, and its courses are those of the coursed
    entries at [i] that resolve, in their order, followed by those of the plan
    semester [i + 1 - currentSemester] that resolve; the plan semesters that
    would land past [TOTAL_SEMESTERS] add nothing anywhere. *)
Theorem parsed_semester_courses (jsonData : RawStudentData.t)
    (info : StudentInfo.t) (plan : StudentPlan.t) (i : nat) :
  parse jsonData = Some info ->
  StudentInfo.currentPlan info = Some plan ->
  i < total ->
  exists sem,
    StudentPlan.semesters plan !! i = Some (Some sem)
    /\ StudentSemester.courses sem
       = (Some <$> omap coursedC
                     (default [] (default [] (RawStudentData.coursed jsonData) !! i)))
           ++ planned (RawStudentData.currentSemester jsonData)
                      (default [] (RawStudentData.plan jsonData)) i.
Proof.
  intros Hparse Hplan Hi.
  destruct (parseStudentData_plan _ _ _ _ _ Hparse) as (semesters & Hsems & Hcur).
  rewrite Hcur in Hplan. injection Hplan as <-. simpl.
  pose proof (parsed_semester jsonData semesters i Hsems) as Hslot. cbv zeta in Hslot.
  unfold baseSemester in Hslot at 1.
  destruct (Nat.ltb_spec i total); [|lia].
  destruct Hslot as (sem & Hsem & _ & _ & Hcs). by exists sem.
Qed.

Lemma parseSemesters_raises_iff (jsonData : RawStudentData.t) :
  parseSems jsonData = None
  <-> exists plan, RawStudentData.plan jsonData = Some plan
        /\ plan <> []
        /\ (RawStudentData.currentSemester jsonData <= 0)%Z.
Proof.
  destruct (parseSemesters_unfold jsonData) as (s2 & Hget & ->).
  destruct (RawStudentData.plan jsonData) as [plan|]; split.
  - intros Hnone. exists plan. split; [done|].
    destruct (Z.le_gt_cases (RawStudentData.currentSemester jsonData) 0) as [Hle|Hgt].
    + split; [|done]. intros ->. done.
    + exfalso. destruct (plan_pass_total PHASE getCourseInfo
                           (RawStudentData.currentSemester jsonData) plan s2)
        as [r Hr]; [lia| |congruence].
      intros i Hi. rewrite Hget. unfold baseSemester.
      destruct (Nat.ltb_spec i total); [by eexists|lia].
  - intros (plan' & [= <-] & Hne & Hle).
    destruct plan as [|x rest]; [done|].
    assert (Hfirst : addPlan (RawStudentData.currentSemester jsonData)
                       (Some s2) x 0 = None).
    { unfold addPlanSemester. simpl. change (Z.of_nat 0) with 0%Z.
      destruct (Z.ltb_spec (Z.of_nat total)
                  (RawStudentData.currentSemester jsonData + 0)); [lia|].
      unfold getZ.
      destruct (Z.ltb_spec (RawStudentData.currentSemester jsonData + 0 - 1) 0);
        [reflexivity|lia]. }
    change (JS.forEach_from (addPlan (RawStudentData.currentSemester jsonData)) 1
              (Some <$> rest)
              (addPlan (RawStudentData.currentSemester jsonData) (Some s2) x 0)
            = None).
    rewrite Hfirst. apply forEach_from_raised.
  - done.
  - by intros (plan' & [=] & _).
Qed.

(** X7.  When the parser raises: it returns for every record except those
    with a non-empty plan and a [currentSemester] below 1, for which the
    first plan semester has no target. *)
Theorem parse_raises_iff (jsonData : RawStudentData.t) :
  parse jsonData = None
  <-> exists plan, RawStudentData.plan jsonData = Some plan
        /\ plan <> []
        /\ (RawStudentData.currentSemester jsonData <= 0)%Z.
Proof.
  rewrite <- parseSemesters_raises_iff.
  unfold parseStudentData. by destruct (parseSems jsonData).
Qed.

(** X8.  A planned entry and its status: for a plan that starts at semester
    1 or later, the entry [j] of the plan semester [p] whose code resolves,
    with [currentSemester + p] within [TOTAL_SEMESTERS], gives a course of
    the semester at index [currentSemester + p - 1], without grade, in
    progress when [p] is 0 and planned otherwise. *)
Theorem planned_entry_status (jsonData : RawStudentData.t)
    (info : StudentInfo.t) (studentPlan : StudentPlan.t) plan (p j : nat) entries
    (code : string) (cls g : option string) (courseInfo : Course.t) :
  parse jsonData = Some info ->
  StudentInfo.currentPlan info = Some studentPlan ->
  RawStudentData.plan jsonData = Some plan ->
  plan !! p = Some entries ->
  entries !! j = Some (code, cls, g) ->
  getCourseInfo code = Some courseInfo ->
  (1 <= RawStudentData.currentSemester jsonData)%Z ->
  (RawStudentData.currentSemester jsonData + Z.of_nat p <= Z.of_nat total)%Z ->
  exists sem,
    StudentPlan.semesters studentPlan
      !! Z.to_nat (RawStudentData.currentSemester jsonData + Z.of_nat p - 1)
    = Some (Some sem)
    /\ Some {| StudentCourse.spread := courseInfo;
               StudentCourse.course := courseInfo;
               StudentCourse.status := if decide (p = 0) then IN_PROGRESS else PLANNED;
               StudentCourse.grade := None;
               StudentCourse.class := classOf cls |}
         ∈ StudentSemester.courses sem.
Proof.
  intros Hparse Hcurrent Hplan Hp Hj Hcode Hcur Hin.
  destruct (parseStudentData_plan _ _ _ _ _ Hparse) as (semesters & Hsems & Hc).
  rewrite Hc in Hcurrent. injection Hcurrent as <-. simpl.
  set (t := Z.to_nat (RawStudentData.currentSemester jsonData + Z.of_nat p - 1)).
  pose proof (parsed_semester jsonData semesters t Hsems) as Hslot. cbv zeta in Hslot.
  unfold baseSemester in Hslot at 1.
  destruct (Nat.ltb_spec t total); [|lia].
  destruct Hslot as (sem & Hsem & _ & _ & Hcs). exists sem. split; [done|].
  rewrite Hcs, Hplan. simpl. apply elem_of_app. right.
  unfold plannedFor.
  destruct (Z.ltb_spec (Z.of_nat t + 1 - RawStudentData.currentSemester jsonData) 0);
    [lia|].
  destruct (Z.ltb_spec (Z.of_nat total) (Z.of_nat t + 1)); [lia|]. simpl.
  replace (Z.to_nat (Z.of_nat t + 1 - RawStudentData.currentSemester jsonData))
    with p by lia.
  rewrite Hp.
  assert (Hst : (if (Z.of_nat t + 1 - RawStudentData.currentSemester jsonData =? 0)%Z
                 then IN_PROGRESS else PLANNED)
                = if decide (p = 0) then IN_PROGRESS else PLANNED).
  { destruct (Z.eqb_spec (Z.of_nat t + 1 - RawStudentData.currentSemester jsonData) 0),
             (decide (p = 0)); (done || lia). }
  rewrite Hst.
  apply list_elem_of_lookup_2, list_elem_of_split in Hj as (l1 & l2 & ->).
  rewrite foldl_app. simpl. rewrite pushPlanned_app.
  apply elem_of_app. left. unfold pushPlanned at 2. rewrite Hcode.
  apply elem_of_app. right. apply list_elem_of_here.
Qed.

End ParseMore.

(** * The parser with the positions and the timetable *)

Section ParseCompose.

Variable COURSE_BOX : COURSE_BOX.t.
Variable PHASE : PHASE.t.
Variable phaseWidth : Q.
Variable getCourseInfo : string -> option Course.t.
Variable parseFloat : string -> JS.number.

Local Abbreviation total := (PHASE.TOTAL_SEMESTERS PHASE).
Local Abbreviation capacity := (PHASE.BOXES_PER_COLUMN PHASE).
Local Abbreviation coursedC := (coursedCourse getCourseInfo parseFloat).
Local Abbreviation pushP := (pushPlanned getCourseInfo).
Local Abbreviation planned := (plannedFor PHASE getCourseInfo).
Local Abbreviation parseSems := (parseSemesters PHASE getCourseInfo parseFloat).
Local Abbreviation parse := (parseStudentData PHASE getCourseInfo parseFloat).
Local Abbreviation calc := (calculateStudentPositions COURSE_BOX PHASE phaseWidth).
Local Abbreviation inProgress :=
  (fun course : StudentCourse.t => StudentCourse.status course = IN_PROGRESS).

(** X9.  The positions of a parsed plan: every course list the parser
    builds is without empty slot, so the positions computed for its plan are
    as many as the sum over its semesters of
    [max(courses.length, BOXES_PER_COLUMN)], at least [BOXES_PER_COLUMN] for
    each of the first [TOTAL_SEMESTERS] semesters. *)
Theorem parsed_plan_positions (jsonData : RawStudentData.t)
    (info : StudentInfo.t) (plan : StudentPlan.t) :
  parse jsonData = Some info ->
  StudentInfo.currentPlan info = Some plan ->
  denseCourses plan
  /\ length (PositionsState.positions (calc plan))
     = sum_list_with
         (fun sem => length (StudentSemester.courses sem) `max` capacity)
         (planSemesters plan)
  /\ total * capacity <= length (PositionsState.positions (calc plan)).
Proof.
  intros Hparse Hplan.
  destruct (parseStudentData_plan _ _ _ _ _ Hparse) as (semesters & Hsems & Hcur).
  rewrite Hcur in Hplan. injection Hplan as <-.
  pose proof (parsed_courses_dense _ _ _ _ _ Hsems) as Hdense.
  assert (Hlen : length (PositionsState.positions
                           (calc {| StudentPlan.id := "1";
                                    StudentPlan.semesters := semesters |}))
                 = sum_list_with
                     (fun sem => length (StudentSemester.courses sem) `max` capacity)
                     (omap id semesters)).
  { by apply forEach_positions_length. }
  split; [exact Hdense|]. split; [exact Hlen|]. rewrite Hlen.
  destruct (parseSemesters_spec PHASE getCourseInfo parseFloat jsonData)
    as (s2 & _ & Hge & Hget & _ & _ & Hext).
  specialize (Hext _ Hsems).
  assert (Hfirst : forall i, i < total -> is_Some (JS.get semesters i)).
  { intros i Hi. pose proof (Hget i) as Hgi.
    destruct (Nat.ltb_spec i total); [|lia].
    destruct (extends_get _ _ _ _ Hext Hgi) as (sem' & -> & _). by eexists. }
  clear -Hfirst. revert Hfirst. generalize total as n. intros n.
  revert semesters. induction n as [|n IH]; intros semesters Hfirst; [simpl; lia|].
  destruct semesters as [|o semesters].
  { destruct (Hfirst 0) as [? Hx]; [lia|]. done. }
  destruct (Hfirst 0) as [sem Hsem]; [lia|].
  unfold JS.get in Hsem. simpl in Hsem. subst o.
  change (omap id (Some sem :: semesters)) with (sem :: omap id semesters).
  assert (Hrest : n * capacity
                  <= sum_list_with
                       (fun sem => length (StudentSemester.courses sem) `max` capacity)
                       (omap id semesters)).
  { apply IH. intros i Hi. apply (Hfirst (S i)). lia. }
  rewrite Nat.mul_succ_l. cbn [sum_list_with]. lia.
Qed.

Lemma filter_all {A : Type} (P : A -> Prop) `{!forall x, Decision (P x)}
    (l : list A) :
  Forall P l -> filter P l = l.
Proof.
  induction 1 as [|x l Hx _ IH]; [done|].
  rewrite filter_cons_True by done. by rewrite IH.
Qed.

Lemma filter_none {A : Type} (P : A -> Prop) `{!forall x, Decision (P x)}
    (l : list A) :
  Forall (fun x => ~ P x) l -> filter P l = [].
Proof.
  induction 1 as [|x l Hx _ IH]; [done|]. by rewrite filter_cons_False.
Qed.

Lemma currentCourses_flat (semesters : list (option StudentSemester.t)) :
  filter inProgress
    (omap id (flat_map StudentSemester.courses (omap id semesters)))
  = flat_map (fun o => match o with
                       | Some sem => filter inProgress (coursesOf sem)
                       | None => []
                       end) semesters.
Proof.
  induction semesters as [|[sem|] l IH]; [done| |exact IH].
  change (omap id (Some sem :: l)) with (sem :: omap id l).
  cbn [flat_map]. by rewrite omap_app, filter_app, IH.
Qed.

Lemma flat_map_only {A B : Type} (g : A -> list B) (l : list A) (t : nat) :
  (forall i x, l !! i = Some x -> i <> t -> g x = []) ->
  flat_map g l = from_option g [] (l !! t).
Proof.
  revert t. induction l as [|a l IH]; intros t Hothers; [done|].
  simpl. destruct t as [|t]; simpl.
  - rewrite (IH (S (length l))).
    + rewrite lookup_ge_None_2 by lia. simpl. by rewrite app_nil_r.
    + intros i x Hi _. apply (Hothers (S i) x); [done|lia].
  - rewrite (Hothers 0 a) by done. simpl. apply IH.
    intros i x Hi Hne. apply (Hothers (S i) x); [done|lia].
Qed.

Lemma filter_inProgress_coursed (entries : list RawStudentData.entry) :
  filter inProgress (omap id (Some <$> omap coursedC entries)) = [].
Proof.
  apply filter_none, Forall_forall. intros sc Hsc.
  apply list_elem_of_omap in Hsc as (x & Hx & Hid). simpl in Hid. subst x.
  apply coursed_elem in Hx as (sc' & _ & _ & [= <-] & _ & _ & _ & [Hs|Hs]);
    by rewrite Hs.
Qed.

Lemma filter_inProgress_planned cur plan i :
  filter inProgress (omap id (planned cur plan i))
  = if (Z.of_nat i + 1 - cur =? 0)%Z then omap id (planned cur plan i) else [].
Proof.
  assert (Hst : Forall (fun sc => StudentCourse.status sc
                  = if (Z.of_nat i + 1 - cur =? 0)%Z then IN_PROGRESS else PLANNED)
                  (omap id (planned cur plan i))).
  { apply Forall_forall. intros sc Hsc.
    apply list_elem_of_omap in Hsc as (x & Hx & Hid). simpl in Hid. subst x.
    by apply plannedFor_elem in Hx as (sc' & _ & _ & [= <-] & _ & _ & _ & _ & Hs). }
  destruct (Z.of_nat i + 1 - cur =? 0)%Z.
  - by apply filter_all.
  - apply filter_none. eapply Forall_impl; [exact Hst|]. by intros sc ->.
Qed.

(** X10.  The courses of the timetable after parsing: the in-progress
    courses of the parsed plan are exactly the entries of the first plan
    semester whose code resolves, in their order, when [currentSemester] is
    within [TOTAL_SEMESTERS]; there is none when it is beyond, or when the
    plan is missing or empty. *)
Theorem parsed_current_courses (jsonData : RawStudentData.t) (info : StudentInfo.t) :
  parse jsonData = Some info ->
  currentCourses info
  = if (RawStudentData.currentSemester jsonData <=? Z.of_nat total)%Z
    then omap id
           (foldl (pushP IN_PROGRESS) []
                  (default [] (default [] (RawStudentData.plan jsonData) !! 0)))
    else [].
Proof.
  intros Hparse.
  destruct (parseStudentData_plan _ _ _ _ _ Hparse) as (semesters & Hsems & Hcur).
  unfold currentCourses. rewrite Hcur. simpl. rewrite currentCourses_flat.
  set (cur := RawStudentData.currentSemester jsonData).
  set (plan := default [] (RawStudentData.plan jsonData)).
  set (g := fun o : option StudentSemester.t =>
              match o with
              | Some sem => filter inProgress (coursesOf sem)
              | None => []
              end).
  assert (Hg : forall i sem, semesters !! i = Some (Some sem) ->
            g (Some sem)
            = if (Z.of_nat i + 1 - cur =? 0)%Z then omap id (planned cur plan i)
              else []).
  { intros i sem Hi.
    destruct (parsed_slot_courses _ _ _ _ _ _ _ Hsems Hi) as (_ & _ & Hcs & _).
    simpl. unfold coursesOf. rewrite Hcs, omap_app, filter_app.
    rewrite filter_inProgress_coursed. simpl. apply filter_inProgress_planned. }
  destruct (Z.le_gt_cases cur 0) as [Hneg|Hpos].
  { assert (Hempty : plan = []).
    { subst plan. destruct (RawStudentData.plan jsonData) as [pl|] eqn:Hpl; [|done].
      simpl. destruct pl as [|x rest]; [done|]. exfalso.
      assert (Hr : parseSems jsonData = None); [|congruence].
      apply parseSemesters_raises_iff. by exists (x :: rest). }
    rewrite Hempty. simpl.
    assert (Hnil : flat_map g semesters = []).
    { rewrite (flat_map_only g semesters (length semesters)).
      - by rewrite lookup_ge_None_2.
      - intros i [sem|] Hi _; [|done]. rewrite (Hg i sem Hi), Hempty.
        rewrite plannedFor_nil. by destruct (_ =? _)%Z. }
    rewrite Hnil. by destruct (_ <=? _)%Z. }
  set (t := Z.to_nat (cur - 1)).
  rewrite (flat_map_only g semesters t).
  2:{ intros i [sem|] Hi Hne; [|done]. rewrite (Hg i sem Hi).
      destruct (Z.eqb_spec (Z.of_nat i + 1 - cur) 0); [lia|done]. }
  destruct (Z.leb_spec cur (Z.of_nat total)) as [Hin|Hout].
  - pose proof (parsed_semester PHASE getCourseInfo parseFloat jsonData
                  semesters t Hsems) as Hslot.
    cbv zeta in Hslot. unfold baseSemester in Hslot at 1.
    destruct (Nat.ltb_spec t total); [|lia].
    destruct Hslot as (sem & Hsem & _). rewrite Hsem.
    change (from_option g [] (Some (Some sem))) with (g (Some sem)).
    rewrite (Hg t sem Hsem).
    destruct (Z.eqb_spec (Z.of_nat t + 1 - cur) 0) as [Hz|]; [|lia].
    unfold plannedFor. rewrite Hz. simpl.
    destruct (Z.ltb_spec (Z.of_nat total) (Z.of_nat t + 1)); [lia|].
    change (Z.to_nat 0) with 0. by destruct (plan !! 0).
  - destruct (semesters !! t) as [[sem|]|] eqn:Hsem; [|done|done].
    change (from_option g [] (Some (Some sem))) with (g (Some sem)).
    rewrite (Hg t sem Hsem).
    destruct (Z.eqb_spec (Z.of_nat t + 1 - cur) 0) as [Hz|]; [|done].
    unfold plannedFor. rewrite Hz. simpl.
    by destruct (Z.ltb_spec (Z.of_nat total) (Z.of_nat t + 1)); [|lia].
Qed.

End ParseCompose.

(** * Further properties of the timetable *)

Section OverrideMore.

Variable TIMETABLE : TIMETABLE.t.
Variable scheduleData : ScheduleData.t.

Local Abbreviation select := (handleProfessorSelect TIMETABLE scheduleData).
Local Abbreviation parseText := (parseSchedule TIMETABLE).
Local Abbreviation keyOf := ProfessorOverride.courseId.

Implicit Types (os : list ProfessorOverride.t) (course : StudentCourse.t)
  (professorId : string).

Lemma filter_other_idem os (key : string) :
  filter (fun o => keyOf o <> key) (filter (fun o => keyOf o <> key) os)
  = filter (fun o => keyOf o <> key) os.
Proof.
  apply filter_all, Forall_forall. by intros o [? _]%list_elem_of_filter.
Qed.

Lemma filter_same_other os (key : string) :
  filter (fun o => keyOf o = key) (filter (fun o => keyOf o <> key) os) = [].
Proof.
  apply filter_none, Forall_forall. by intros o [? _]%list_elem_of_filter.
Qed.

Lemma NoDup_keys_filter (P : ProfessorOverride.t -> Prop)
    `{!forall o, Decision (P o)} os :
  NoDup (keyOf <$> os) -> NoDup (keyOf <$> filter P os).
Proof.
  induction os as [|o os IH]; [done|].
  rewrite fmap_cons. intros [Ho Hnd]%NoDup_cons.
  destruct (decide (P o)).
  - rewrite filter_cons_True by done. rewrite fmap_cons. apply NoDup_cons.
    split; [|by apply IH].
    intros (o' & Hk & [_ Hin]%list_elem_of_filter)%list_elem_of_fmap.
    apply Ho. apply list_elem_of_fmap. by exists o'.
  - rewrite filter_cons_False by done. by apply IH.
Qed.

(** X11.  One override per course: after a professor that the schedule data
    knows was selected for a course, the overrides hold exactly one override
    for the id of that course, the new one, and the overrides of the other
    courses as they were and in their order; overrides that had at most one
    entry per course id still have. *)
Theorem professor_select_replaces os course professorId
    (professorData : ProfessorData.t) :
  findProfessor scheduleData (courseKey course) professorId = Some professorData ->
  let os' := select os course professorId in
  filter (fun o => keyOf o = courseKey course) os'
  = [ {| ProfessorOverride.courseId := courseKey course;
         ProfessorOverride.professorId := professorId;
         ProfessorOverride.schedule :=
           parseText (ProfessorData.schedule professorData) |} ]
  /\ filter (fun o => keyOf o <> courseKey course) os'
     = filter (fun o => keyOf o <> courseKey course) os
  /\ (NoDup (keyOf <$> os) -> NoDup (keyOf <$> os')).
Proof.
  intros Hprof os'. subst os'. unfold handleProfessorSelect.
  fold (courseKey course). rewrite Hprof. split; [|split].
  - rewrite filter_app, filter_same_other. simpl.
    by rewrite filter_cons_True.
  - rewrite filter_app, filter_other_idem.
    rewrite filter_cons_False by (simpl; tauto). by rewrite filter_nil, app_nil_r.
  - intros Hnd. rewrite fmap_app. apply NoDup_app. split; [|split].
    + by apply NoDup_keys_filter.
    + intros k (o & -> & [Hne _]%list_elem_of_filter)%list_elem_of_fmap.
      simpl. by intros Heq%list_elem_of_singleton.
    + simpl. apply NoDup_singleton.
Qed.

(** X12.  The last selection counts: selecting a professor that the schedule
    data knows gives the same overrides whether or not another professor was
    selected for that course before. *)
Theorem professor_select_again os course professorId1 professorId2
    (professorData : ProfessorData.t) :
  findProfessor scheduleData (courseKey course) professorId2 = Some professorData ->
  select (select os course professorId1) course professorId2
  = select os course professorId2.
Proof.
  intros Hprof. unfold handleProfessorSelect at 1 3.
  fold (courseKey course). rewrite Hprof. f_equal.
  unfold handleProfessorSelect. fold (courseKey course).
  destruct (findProfessor _ _ professorId1); [|done].
  rewrite filter_app, filter_other_idem.
  rewrite filter_cons_False by (simpl; tauto). by rewrite filter_nil, app_nil_r.
Qed.



End OverrideMore.

Section ScheduleMore.

Variable TIMETABLE : TIMETABLE.t.
Variable scheduleData : ScheduleData.t.
Variable studentInfo : StudentInfo.t.

Local Abbreviation slots := (TIMETABLE.TIME_SLOTS TIMETABLE).
Local Abbreviation courses := (currentCourses studentInfo).
Local Abbreviation gridOf := (courseSchedule TIMETABLE scheduleData courses).
Local Abbreviation claims := (covers TIMETABLE).
Local Abbreviation select := (handleProfessorSelect TIMETABLE scheduleData).

Implicit Types (os : list ProfessorOverride.t).

Lemma covers_slot (entry : ScheduleEntry.t) slotId day :
  claims entry slotId day = true -> slotId ∈ TimeSlot.id <$> slots.
Proof.
  unfold covers.
  destruct (findIndex TIMETABLE _) as [k|] eqn:Hk; [|done].
  destruct (findIndex_Some _ _ _ Hk) as (slot & Hslot & Hid).
  intros [_ [Hs|Hs]%orb_true_iff]%andb_true_iff.
  - apply bool_decide_eq_true in Hs as ->. rewrite <- Hid.
    apply list_elem_of_fmap. exists slot. split; [done|].
    by eapply list_elem_of_lookup_2.
  - apply bool_decide_eq_true in Hs.
    destruct (slots !! (k + 1)) as [next|] eqn:Hnext; [|done].
    injection Hs as <-. apply list_elem_of_fmap. exists next. split; [done|].
    by eapply list_elem_of_lookup_2.
Qed.

(** The write behind a filled cell. *)
Lemma cell_write os slotId day (c : StudentCourse.t) :
  cell (gridOf os) slotId day = Some c ->
  exists entry,
    (c, entry) ∈ scheduleWrites scheduleData courses os
    /\ claims entry slotId day = true.
Proof.
  rewrite cell_courseSchedule.
  destruct (last _) as [[c' e]|] eqn:Hlast; [|done].
  intros [= <-].
  apply last_Some_elem_of, list_elem_of_filter in Hlast as [Hclaim Hin].
  by exists e.
Qed.

(** X14.  What the grid can hold: a cell that is filled holds one of the
    current courses, which is in progress, in the row of a time slot; so
    with no course in progress the grid is empty, whatever the overrides. *)
Theorem grid_holds_current_courses os slotId day (c : StudentCourse.t) :
  cell (gridOf os) slotId day = Some c ->
  c ∈ courses
  /\ StudentCourse.status c = IN_PROGRESS
  /\ slotId ∈ TimeSlot.id <$> slots.
Proof.
  intros (e & Hin & Hclaim)%cell_write.
  assert (Hc : c ∈ courses).
  { apply elem_of_app in Hin as [Hin|Hin].
    - by apply defaultWrites_elem in Hin as (? & _).
    - apply overrideWrites_elem in Hin as (o & _ & Hfind & _).
      by apply (found_course_key studentInfo) in Hfind as [? _]. }
  split; [done|]. split; [by apply (currentCourses_in_progress studentInfo)|].
  by eapply covers_slot.
Qed.

(** X15.  A professor without usable times hides the course: when the
    selected professor's schedule gives no entry whose start time is the id
    of a time slot, in particular when the text cannot be parsed, no cell of
    the grid holds a course with the id of that course any more, its default
    times included. *)
Theorem unusable_override_hides_course os (course : StudentCourse.t)
    (professorId : string) (professorData : ProfessorData.t) :
  findProfessor scheduleData (courseKey course) professorId = Some professorData ->
  Forall (fun e => findIndex TIMETABLE (ScheduleEntry.startTime e) = None)
         (parseSchedule TIMETABLE (ProfessorData.schedule professorData)) ->
  forall slotId day c,
    cell (gridOf (select os course professorId)) slotId day = Some c ->
    courseKey c <> courseKey course.
Proof.
  intros Hprof Hunusable slotId day c (e & Hin & Hclaim)%cell_write Hkey.
  assert (Hos : select os course professorId
                = filter (fun o => ProfessorOverride.courseId o <> courseKey course) os
                  ++ [ {| ProfessorOverride.courseId := courseKey course;
                          ProfessorOverride.professorId := professorId;
                          ProfessorOverride.schedule :=
                            parseSchedule TIMETABLE
                              (ProfessorData.schedule professorData) |} ]).
  { unfold handleProfessorSelect. fold (courseKey course). by rewrite Hprof. }
  apply elem_of_app in Hin as [Hin|Hin].
  - apply defaultWrites_elem in Hin as (_ & Hov & _). apply Hov.
    rewrite Hkey, Hos. unfold overriddenCourses.
    apply elem_of_list_to_set. rewrite fmap_app. apply elem_of_app. right.
    apply list_elem_of_here.
  - apply overrideWrites_elem in Hin as (o & Ho & Hfind & He).
    apply (found_course_key studentInfo) in Hfind as [_ Hk].
    rewrite Hos in Ho. apply elem_of_app in Ho as [Ho|Ho%list_elem_of_singleton].
    + apply list_elem_of_filter in Ho as [Hne _]. congruence.
    + subst o. simpl in He.
      rewrite Forall_forall in Hunusable. specialize (Hunusable e He).
      unfold covers in Hclaim. by rewrite Hunusable in Hclaim.
Qed.

Lemma find_no_course (key : string) (cs : list StudentCourse.t) :
  (forall c, c ∈ cs -> courseKey c <> key) ->
  find (fun c => bool_decide (Course.id (StudentCourse.course c) = key)) cs = None.
Proof.
  induction cs as [|c cs IH]; intros Hcs; [done|]. simpl.
  rewrite bool_decide_eq_false_2.
  - apply IH. intros c' Hc'. apply Hcs. by apply list_elem_of_further.
  - apply (Hcs c). apply list_elem_of_here.
Qed.

Lemma flat_map_ext_elem {A B : Type} (f g : A -> list B) (l : list A) :
  (forall x, x ∈ l -> f x = g x) -> flat_map f l = flat_map g l.
Proof.
  induction l as [|a l IH]; intros Hfg; [done|]. simpl.
  rewrite (Hfg a) by apply list_elem_of_here. f_equal. apply IH.
  intros x Hx. apply Hfg. by apply list_elem_of_further.
Qed.

(** X16.  An override for a course that is not in progress changes nothing:
    the grid is the same with and without it. *)
Theorem foreign_override_ignored os1 os2 (override : ProfessorOverride.t) :
  (forall c, c ∈ courses -> courseKey c <> ProfessorOverride.courseId override) ->
  gridOf (os1 ++ override :: os2) = gridOf (os1 ++ os2).
Proof.
  intros Hforeign. rewrite !courseSchedule_writes. f_equal.
  unfold scheduleWrites. f_equal.
  - unfold defaultWrites. apply flat_map_ext_elem. intros c Hc.
    assert (Hsame : bool_decide (Course.id (StudentCourse.course c)
                                 ∈ overriddenCourses (os1 ++ override :: os2))
                    = bool_decide (Course.id (StudentCourse.course c)
                                   ∈ overriddenCourses (os1 ++ os2))).
    { apply bool_decide_ext. unfold overriddenCourses.
      rewrite !elem_of_list_to_set, !fmap_app, fmap_cons, !elem_of_app, elem_of_cons.
      specialize (Hforeign c Hc). unfold courseKey in Hforeign. tauto. }
    by rewrite Hsame.
  - unfold overrideWrites. rewrite !flat_map_app. f_equal. simpl.
    by rewrite find_no_course.
Qed.

End ScheduleMore.

Section ColorFacts.

Variable COURSE_COLORS : list string.

Local Abbreviation colorMapOf := (courseColorMap COURSE_COLORS).
Local Abbreviation colorOf := (getCourseColor COURSE_COLORS).
Local Abbreviation colorAt :=
  (fun index : nat => colorIndexOf COURSE_COLORS index ≫= fun i => COURSE_COLORS !! i).

Lemma colorMap_fresh (cs : list StudentCourse.t) (key : string) :
  key ∉ courseKey <$> cs -> colorMapOf cs !! key = None.
Proof.
  unfold courseColorMap.
  induction cs as [|c cs IH] using rev_ind; intros Hkey; [done|].
  rewrite fmap_app in Hkey. apply not_elem_of_app in Hkey as [Hcs Hc].
  rewrite fmap_app. simpl. rewrite forEach_snoc. unfold setColor.
  rewrite lookup_insert_ne; [by apply IH|].
  intros Heq. apply Hc. rewrite <- Heq. apply list_elem_of_here.
Qed.

Lemma colorMap_lookup (cs : list StudentCourse.t) (i : nat) (c : StudentCourse.t) :
  NoDup (courseKey <$> cs) -> cs !! i = Some c ->
  colorMapOf cs !! courseKey c = Some (colorAt i).
Proof.
  unfold courseColorMap.
  revert i. induction cs as [|c' cs IH] using rev_ind; intros i Hnd Hi; [done|].
  rewrite fmap_app in Hnd. apply NoDup_app in Hnd as (Hcs & Hfresh & _).
  rewrite fmap_app. simpl. rewrite forEach_snoc, length_fmap. unfold setColor.
  destruct (Nat.lt_ge_cases i (length cs)) as [Hlt|Hge].
  - rewrite lookup_app_l in Hi by done.
    rewrite lookup_insert_ne; [by apply IH|].
    intros Heq. apply (Hfresh (courseKey c)).
    + apply list_elem_of_fmap. exists c. split; [done|]. by eapply list_elem_of_lookup_2.
    + rewrite <- Heq. apply list_elem_of_here.
  - rewrite lookup_app_r in Hi by done.
    destruct (i - length cs) as [|n] eqn:Hn; [|by destruct n].
    injection Hi as ->. assert (i = length cs) as -> by lia.
    unfold courseKey. by rewrite lookup_insert_eq.
Qed.

(** X17.  The colours of the courses: a course id that no current course has
    gets the default classes; with a non-empty palette and current courses of
    pairwise distinct ids, the course at index [i] gets the colour at
    [i mod COURSE_COLORS.length], or the default classes if that colour is
    the empty string; with an empty palette every id gets the default
    classes. *)
Theorem course_colors (cs : list StudentCourse.t) :
  (forall courseId, courseId ∉ courseKey <$> cs ->
     colorOf cs courseId = "border-gray-300 bg-gray-50")
  /\ (forall i c color,
        NoDup (courseKey <$> cs) -> cs !! i = Some c ->
        COURSE_COLORS !! (i mod length COURSE_COLORS) = Some color ->
        COURSE_COLORS <> [] ->
        colorOf cs (courseKey c) = JS.or_else color "border-gray-300 bg-gray-50")
  /\ (COURSE_COLORS = [] ->
      forall courseId, colorOf cs courseId = "border-gray-300 bg-gray-50").
Proof.
  split; [|split].
  - intros courseId Hfresh. unfold getCourseColor. by rewrite colorMap_fresh.
  - intros i c color Hnd Hi Hcolor Hne. unfold getCourseColor.
    rewrite (colorMap_lookup cs i c Hnd Hi). unfold colorIndexOf.
    destruct (Nat.eqb_spec (length COURSE_COLORS) 0) as [Hz|Hnz].
    { by apply nil_length_inv in Hz. }
    cbn [mbind option_bind]. by rewrite Hcolor.
  - intros Hempty courseId. unfold getCourseColor.
    destruct (colorMapOf cs !! courseId) as [[color|]|] eqn:Hlook; [|done|done].
    exfalso. revert Hlook. unfold courseColorMap. clear -Hempty.
    induction cs as [|c cs IH] using rev_ind; [done|].
    rewrite fmap_app. simpl. rewrite forEach_snoc.
    set (m := JS.forEach _ (Some <$> cs) ∅) in *. unfold setColor, colorIndexOf.
    destruct (Nat.eqb_spec (length COURSE_COLORS) 0) as [Hz|Hnz].
    2:{ by rewrite Hempty in Hnz. }
    cbn [mbind option_bind].
    destruct (decide (Course.id (StudentCourse.course c) = courseId)) as [->|Hne].
    + by rewrite lookup_insert_eq.
    + rewrite lookup_insert_ne by done. apply IH.
Qed.

End ColorFacts.

(** * The home page, the registration form and the visualizer *)

Section PageFacts.

Variable COURSE_BOX : COURSE_BOX.t.
Variable PHASE : PHASE.t.
Variable phaseWidth : Q.

Lemma flat_map_fmap {A B C : Type} (f : B -> C) (g : A -> list B) (l : list A) :
  flat_map (fun a => f <$> g a) l = f <$> flat_map g l.
Proof.
  induction l as [|a l IH]; [done|]. simpl. by rewrite IH, fmap_app.
Qed.

(** X18.  One map for both views: the [studentCourses] map that the page
    builds for the grid visualizer is the [courseMap] that
    [calculateStudentPositions] returns for the current plan, whatever the
    phase width; without a current plan it is empty. *)
Theorem studentCourses_is_courseMap (studentInfo : StudentInfo.t) :
  studentCourses studentInfo
  = match StudentInfo.currentPlan studentInfo with
    | Some plan =>
        PositionsState.studentCourseMap
          (calculateStudentPositions COURSE_BOX PHASE phaseWidth plan)
    | None => ∅
    end.
Proof.
  unfold studentCourses.
  destruct (StudentInfo.currentPlan studentInfo) as [plan|]; [|done].
  unfold calculateStudentPositions. rewrite forEach_courseMap.
  rewrite (flat_map_fmap
             (fun course => (Course.id (StudentCourse.course course), course))
             (fun semester => omap id (StudentSemester.courses semester))).
  by rewrite foldl_fmap.
Qed.

(** X24.  A plan without courses, such as the one a student gets at
    registration, shows only ghost boxes: [BOXES_PER_COLUMN] of them for each
    semester, and an empty [courseMap]. *)
Theorem empty_plan_only_ghosts (plan : StudentPlan.t) :
  Forall (fun sem => StudentSemester.courses sem = []) (planSemesters plan) ->
  let result := calculateStudentPositions COURSE_BOX PHASE phaseWidth plan in
  Forall (fun p => CoursePosition.isGhost p = Some true)
         (PositionsState.positions result)
  /\ length (PositionsState.positions result)
     = length (planSemesters plan) * PHASE.BOXES_PER_COLUMN PHASE
  /\ PositionsState.studentCourseMap result = ∅.
Proof.
  unfold planSemesters, calculateStudentPositions. cbv zeta.
  induction (StudentPlan.semesters plan) as [|[sem|] l IH] using rev_ind; intros Hall.
  - done.
  - rewrite omap_app in Hall. apply Forall_app in Hall as [Hl Hsem].
    apply Forall_cons in Hsem as [Hsem _].
    destruct (IH Hl) as (Hg & Hlen & Hmap).
    rewrite forEach_snoc, addSemester_positions, addSemester_courseMap.
    unfold coursePositions, ghostPositions, coursesOf. rewrite Hsem. simpl.
    split; [|split].
    + apply Forall_app. split; [done|]. apply Forall_forall.
      by intros p (i & -> & _)%list_elem_of_fmap.
    + rewrite length_app, Hlen, length_fmap, length_seq, omap_app, length_app.
      simpl. lia.
    + done.
  - rewrite omap_app in Hall. simpl in Hall. rewrite app_nil_r in Hall.
    rewrite forEach_snoc_hole, omap_app. simpl. rewrite app_nil_r. by apply IH.
Qed.

End PageFacts.

(** X19.  The name shown for a degree is never blank: for a degree id that
    is not empty, [getDegreeName] returns a non-empty string, which is the id
    itself or the name of a program with that id; it is the id when no
    program has it. *)
Theorem getDegreeName_shown (degreePrograms : list DegreeProgram.t)
    (degreeId : string) :
  degreeId <> "" ->
  getDegreeName degreePrograms degreeId <> ""
  /\ (getDegreeName degreePrograms degreeId = degreeId
      \/ exists program, program ∈ degreePrograms
           /\ DegreeProgram.id program = degreeId
           /\ DegreeProgram.name program = getDegreeName degreePrograms degreeId)
  /\ ((forall program, program ∈ degreePrograms ->
         DegreeProgram.id program <> degreeId) ->
      getDegreeName degreePrograms degreeId = degreeId).
Proof.
  intros Hid. unfold getDegreeName.
  destruct (find _ degreePrograms) as [program|] eqn:Hfind.
  - apply find_some in Hfind as [Hin Hp]. apply list_elem_of_In in Hin.
    apply bool_decide_eq_true in Hp.
    unfold JS.or_else, JS.truthy.
    destruct (String.eqb_spec (DegreeProgram.name program) "") as [Hn|Hn]; simpl.
    + split; [done|]. split; [by left|]. done.
    + split; [done|]. split; [right; by exists program|].
      intros Hnone. by destruct (Hnone program Hin).
  - split; [done|]. split; [by left|]. done.
Qed.

(** X20.  Ticking and unticking a degree of interest: unticking removes
    every occurrence of the degree and keeps the other degrees in their
    order; ticking then unticking gives the list without the degree, which is
    the list before when the degree was not in it; the other fields of the
    form are never touched. *)
Theorem interested_degree_untick (prev : RegisterFormData.t) (degree : string) :
  let ticked := handleInterestedDegreeChange prev degree true in
  let unticked := handleInterestedDegreeChange ticked degree false in
  RegisterFormData.interestedDegrees ticked
  = RegisterFormData.interestedDegrees prev ++ [degree]
  /\ RegisterFormData.interestedDegrees unticked
     = filter (fun d => d <> degree) (RegisterFormData.interestedDegrees prev)
  /\ (degree ∉ RegisterFormData.interestedDegrees unticked)
  /\ (degree ∉ RegisterFormData.interestedDegrees prev ->
      RegisterFormData.interestedDegrees unticked
      = RegisterFormData.interestedDegrees prev)
  /\ RegisterFormData.username unticked = RegisterFormData.username prev
  /\ RegisterFormData.password unticked = RegisterFormData.password prev
  /\ RegisterFormData.currentDegree unticked = RegisterFormData.currentDegree prev.
Proof.
  cbv zeta. simpl.
  assert (Hf : filter (fun d => d <> degree)
                      (RegisterFormData.interestedDegrees prev ++ [degree])
               = filter (fun d => d <> degree)
                        (RegisterFormData.interestedDegrees prev)).
  { rewrite filter_app, filter_cons_False by tauto. by rewrite filter_nil, app_nil_r. }
  rewrite Hf. split; [done|]. split; [done|]. split; [|split; [|done]].
  - by intros [Hne _]%list_elem_of_filter.
  - intros Hfresh. apply filter_all, Forall_forall. by intros d Hd ->.
Qed.

(** X21.  The divider lines of the curriculum view: there are
    [totalPhases - 1] of them, none when there is at most one phase; the
    [k]-th is at [(k + 1) * 200], strictly inside the width [totalPhases * 200]
    of the view. *)
Theorem dividers_inside (curriculum : Curriculum.t) :
  length (dividers curriculum)
  = Z.to_nat (Curriculum.totalPhases curriculum - 1)
  /\ ((Curriculum.totalPhases curriculum <= 1)%Z -> dividers curriculum = [])
  /\ forall k left, dividers curriculum !! k = Some left ->
       left = ((Z.of_nat k + 1) * 200)%Z
       /\ (0 < left < totalWidth curriculum)%Z.
Proof.
  unfold dividers, totalWidth. split; [|split].
  - by rewrite length_fmap, length_seq.
  - intros Hle. by replace (Z.to_nat (Curriculum.totalPhases curriculum - 1)) with 0 by lia.
  - intros k left Hk. rewrite list_lookup_fmap in Hk.
    destruct (seq _ _ !! k) as [i|] eqn:Hi; [|done].
    apply lookup_seq in Hi as [-> Hlt]. injection Hk as <-. simpl. lia.
Qed.

Lemma find_position (positions : list CoursePosition.t) (courseId : string) :
  match find (fun p => bool_decide (CoursePosition.courseId p = courseId)) positions with
  | Some p => p ∈ positions /\ CoursePosition.courseId p = courseId
  | None => forall p, p ∈ positions -> CoursePosition.courseId p <> courseId
  end.
Proof.
  destruct (find _ positions) as [p|] eqn:Hfind.
  - apply find_some in Hfind as [Hin Hp]. split; [by apply list_elem_of_In|].
    by apply bool_decide_eq_true in Hp.
  - intros p Hin%list_elem_of_In Hid.
    apply (find_none _ _ Hfind) in Hin. by apply bool_decide_eq_false in Hin.
Qed.

(** X22.  The boxes of the curriculum view: there is one slot per course of
    the curriculum, in phase order; a course is drawn exactly when a position
    carries its id, and then at a position of the visualization with that
    id. *)
Theorem courseBoxes_drawn (curriculum : Curriculum.t)
    (positions : list CoursePosition.t) :
  length (courseBoxes curriculum positions)
  = length (flat_map Phase.courses (Curriculum.phases curriculum))
  /\ (forall course p, Some (course, p) ∈ courseBoxes curriculum positions ->
        p ∈ positions /\ CoursePosition.courseId p = Course.id course
        /\ course ∈ flat_map Phase.courses (Curriculum.phases curriculum))
  /\ (forall course,
        course ∈ flat_map Phase.courses (Curriculum.phases curriculum) ->
        (exists p, Some (course, p) ∈ courseBoxes curriculum positions)
        <-> exists p, p ∈ positions /\ CoursePosition.courseId p = Course.id course).
Proof.
  set (box := fun course : Course.t =>
                match find (fun p => bool_decide (CoursePosition.courseId p
                                                  = Course.id course)) positions with
                | Some position => Some (course, position)
                | None => None
                end).
  assert (Hflat : courseBoxes curriculum positions
                  = box <$> flat_map Phase.courses (Curriculum.phases curriculum)).
  { unfold courseBoxes. apply (flat_map_fmap box Phase.courses). }
  rewrite Hflat. split; [by rewrite length_fmap|]. split.
  - intros course p (course' & Hbox & Hin)%list_elem_of_fmap.
    subst box. simpl in Hbox.
    pose proof (find_position positions (Course.id course')) as Hfind.
    destruct (find _ positions) as [p'|]; [|done].
    injection Hbox as -> ->. destruct Hfind as [Hp Hid]. done.
  - intros course Hcourse.
    pose proof (find_position positions (Course.id course)) as Hfind. split.
    + intros (p & (course' & Hbox & Hin)%list_elem_of_fmap).
      subst box. simpl in Hbox.
      pose proof (find_position positions (Course.id course')) as Hfind'.
      destruct (find _ positions) as [p'|] eqn:Hf in Hbox, Hfind'; [|done].
      injection Hbox as -> ->. exists p'. apply Hfind'.
    + intros (p & Hp & Hid).
      destruct (find _ positions) as [p'|] eqn:Hf.
      * exists p'. apply list_elem_of_fmap. exists course. split; [|done].
        subst box. simpl. by rewrite Hf.
      * by destruct (Hfind p Hp).
Qed.

(** X23.  Colour and icon of a course box go together: a box has an icon
    exactly when its classes are neither those of an empty slot nor the
    default ones, that is when it is not empty and its course is completed,
    in progress, failed, planned or exempted; and two such boxes have the
    same classes only for the same status. *)
Theorem status_color_icon (isEmpty : bool) (studentCourse : option StudentCourse.t) :
  (getStatusIcon isEmpty studentCourse = None
   <-> getStatusColor isEmpty studentCourse = "border-gray-400 border-dashed bg-white/5"
       \/ getStatusColor isEmpty studentCourse = "border-gray-500 bg-gray-100")
  /\ (isEmpty = true ->
      getStatusColor isEmpty studentCourse = "border-gray-400 border-dashed bg-white/5")
  /\ forall c1 c2 : StudentCourse.t,
       getStatusIcon false (Some c1) <> None ->
       getStatusColor false (Some c1) = getStatusColor false (Some c2) ->
       StudentCourse.status c1 = StudentCourse.status c2.
Proof.
  split; [|split].
  - destruct isEmpty; simpl; [split; auto|].
    destruct studentCourse as [sc|]; simpl; [|split; auto].
    destruct (StudentCourse.status sc); split; try done; auto;
      intros [?|?]; discriminate.
  - by intros ->.
  - intros c1 c2. simpl.
    destruct (StudentCourse.status c1), (StudentCourse.status c2);
      try done; discriminate.
Qed.

(** * The statements at sample inputs *)

Lemma ghost_padding_witness :
  StudentPlan.semesters planOne !! 0 = Some (Some semesterOne)
  /\ length (StudentSemester.courses semesterOne) < PHASE.BOXES_PER_COLUMN samplePhase
  /\ CoursePosition.courseId <$> ghostPositions sampleBox samplePhase 200 0 semesterOne
     = ["ghost-1-1"; "ghost-1-2"; "ghost-1-3"].
Proof.
  assert (H1 : StudentPlan.semesters planOne !! 0 = Some (Some semesterOne))
    by reflexivity.
  assert (H2 : length (StudentSemester.courses semesterOne)
               < PHASE.BOXES_PER_COLUMN samplePhase) by (simpl; lia).
  split; [exact H1|]. split; [exact H2|].
  destruct (ghost_padding sampleBox samplePhase 200 planOne 0 semesterOne H1 H2)
    as (_ & _ & _ & _ & _ & Hids).
  apply Hids; reflexivity.
Defined.



Lemma semester_count_exceeded_witness :
  sampleLookup "X" = Some courseX
  /\ RawStudentData.coursed rawLong
     = Some (replicate (PHASE.TOTAL_SEMESTERS samplePhase) []
               ++ [[("X", Some "A", Some "10")]])
  /\ RawStudentData.plan rawLong = None
  /\ exists info plan,
       parseStudentData samplePhase sampleLookup sampleParseFloat rawLong = Some info
       /\ StudentInfo.currentPlan info = Some plan
       /\ length (StudentPlan.semesters plan) = 3
       /\ length (StudentPlan.semesters plan) <> 2.
Proof.
  split; [reflexivity|]. split; [reflexivity|]. split; [reflexivity|].
  exact (semester_count_exceeded samplePhase sampleLookup sampleParseFloat rawLong
           "X" (Some "A") (Some "10") courseX eq_refl eq_refl eq_refl).
Defined.

Lemma grade_status_witness :
  RawStudentData.coursed rawGraded
  = Some [[("X", Some "A", Some "10"); ("Y", Some "B", Some "5.5")]]
  /\ [[("X", Some "A", Some "10"); ("Y", Some "B", Some "5.5")]] !! 0
     = Some [("X", Some "A", Some "10"); ("Y", Some "B", Some "5.5")]
  /\ [("X", Some "A", Some "10"); ("Y", Some "B", Some "5.5")] !! 1
     = Some ("Y", Some "B", Some "5.5")
  /\ sampleLookup "Y" = Some courseY
  /\ is_Some (parseStudentData samplePhase sampleLookup sampleParseFloat rawGraded).
Proof.
  split; [reflexivity|]. split; [reflexivity|]. split; [reflexivity|].
  split; [reflexivity|].
  apply (proj1 (grade_status samplePhase sampleLookup sampleParseFloat rawGraded
                  _ 0 1 _ "Y" (Some "B") (Some "5.5") courseY
                  eq_refl eq_refl eq_refl eq_refl)).
  simpl. lia.
Defined.


Lemma override_precedence_witness :
  courseKey studentX ∈ overriddenCourses [overrideX]
  /\ Forall (fun w => courseKey w.1 <> courseKey studentX)
            (defaultWrites sampleSchedule (currentCourses (infoOf planTwo)) [overrideX]).
Proof.
  assert (H1 : courseKey studentX ∈ overriddenCourses [overrideX]).
  { apply elem_of_union_l, elem_of_singleton. reflexivity. }
  split; [exact H1|].
  exact (proj1 (override_precedence sampleTimetable sampleSchedule (infoOf planTwo)
                  [overrideX] studentX H1)).
Defined.


Lemma last_write_wins_witness :
  cell (courseSchedule sampleTimetable sampleSchedule
          (currentCourses (infoOf planTwo)) []) "09:40" 1
  = Some studentY.
Proof.
  apply (proj1 (last_write_wins sampleTimetable sampleSchedule (infoOf planTwo) [])
           [(studentX, {| ScheduleEntry.day := 1; ScheduleEntry.startTime := "08:00" |})]
           studentY {| ScheduleEntry.day := 1; ScheduleEntry.startTime := "09:40" |} []).
  - reflexivity.
  - reflexivity.
  - constructor.
Defined.

(** The examples of the timetable: a default entry at 08:00 fills 08:00 and
    09:40 of its day; an entry in the last slot fills that slot only; an
    entry at an unknown time fills nothing. *)
Example timetable_two_slots :
  let grid := courseSchedule sampleTimetable sampleSchedule
                (currentCourses (infoOf planOne)) [] in
  cell grid "08:00" 1 = Some studentX
  /\ cell grid "09:40" 1 = Some studentX
  /\ cell grid "11:20" 1 = None
  /\ cell grid "08:00" 0 = None.
Proof. vm_compute. repeat split. Qed.

Example timetable_last_slot :
  let grid := courseSchedule sampleTimetable edgeSchedule
                (currentCourses (infoOf planOne)) [] in
  cell grid "11:20" 2 = Some studentX
  /\ cell grid "09:40" 2 = None
  /\ cell grid "08:00" 2 = None
  /\ cell grid "08:00" 0 = None
  /\ cell grid "09:40" 0 = None
  /\ cell grid "07:00" 0 = None.
Proof. vm_compute. repeat split. Qed.

(** With the override of X, its default entry at 08:00 is gone and the
    override wins the cells it shares with the default entry of Y. *)
Example timetable_override :
  let grid := courseSchedule sampleTimetable sampleSchedule
                (currentCourses (infoOf planTwo))
                (handleProfessorSelect sampleTimetable sampleSchedule [] studentX "p1") in
  cell grid "08:00" 1 = None
  /\ cell grid "09:40" 1 = Some studentX
  /\ cell grid "11:20" 1 = Some studentX
  /\ cell grid "09:40" 0 = Some studentX.
Proof. vm_compute. repeat split. Qed.

(** A failed and a passed course, and the planned course of the current
    semester. *)
Example parse_graded :
  (StudentPlan.semesters <$>
     (parseStudentData samplePhase sampleLookup sampleParseFloat rawGraded
        ≫= StudentInfo.currentPlan))
  = Some
      [ Some {| StudentSemester.number := 1;
                StudentSemester.courses :=
                  [ Some {| StudentCourse.spread := courseX;
                            StudentCourse.course := courseX;
                            StudentCourse.status := COMPLETED;
                            StudentCourse.grade := Some (JS.Num 10);
                            StudentCourse.class := Some "A" |};
                    Some {| StudentCourse.spread := courseY;
                            StudentCourse.course := courseY;
                            StudentCourse.status := FAILED;
                            StudentCourse.grade := Some (JS.Num (55 # 10));
                            StudentCourse.class := Some "B" |} ];
                StudentSemester.totalCredits := 10 |};
        Some {| StudentSemester.number := 2;
                StudentSemester.courses :=
                  [ Some {| StudentCourse.spread := courseY;
                            StudentCourse.course := courseY;
                            StudentCourse.status := IN_PROGRESS;
                            StudentCourse.grade := None;
                            StudentCourse.class := None |} ];
                StudentSemester.totalCredits := 6 |} ].
Proof. reflexivity. Qed.

(** A plan that starts before semester 1 has no target semester: the source
    raises. *)
Example parse_raises :
  parseStudentData samplePhase sampleLookup sampleParseFloat rawZero = None.
Proof. reflexivity. Qed.

(** * The further statements at sample inputs *)

Lemma positions_uniform_witness :
  coursePosition sampleBox 200 0 0 studentX
    ∈ PositionsState.positions
        (calculateStudentPositions sampleBox samplePhase 200 planOne)
  /\ CoursePosition.width (coursePosition sampleBox 200 0 0 studentX)
     = boxWidth sampleBox 200.
Proof.
  assert (H1 : coursePosition sampleBox 200 0 0 studentX
                 ∈ PositionsState.positions
                     (calculateStudentPositions sampleBox samplePhase 200 planOne))
    by apply list_elem_of_here.
  split; [exact H1|].
  exact (proj1 (positions_uniform sampleBox samplePhase 200 planOne _ H1)).
Defined.

Lemma full_column_no_ghost_witness :
  StudentPlan.semesters planOne !! 0 = Some (Some semesterOne)
  /\ PHASE.BOXES_PER_COLUMN tightPhase <= length (StudentSemester.courses semesterOne)
  /\ PositionsState.positions (stateAfter sampleBox tightPhase 200 planOne 1)
     = PositionsState.positions (stateAfter sampleBox tightPhase 200 planOne 0)
         ++ coursePositions sampleBox 200 0 semesterOne.
Proof.
  assert (H2 : PHASE.BOXES_PER_COLUMN tightPhase
               <= length (StudentSemester.courses semesterOne)) by (simpl; lia).
  split; [reflexivity|]. split; [exact H2|].
  exact (proj1 (full_column_no_ghost sampleBox tightPhase 200 planOne 0 semesterOne
                  eq_refl H2)).
Defined.

Lemma courseMap_lookup_unique_witness :
  NoDup (courseKey <$> realCourses planTwo)
  /\ size (PositionsState.studentCourseMap
             (calculateStudentPositions sampleBox samplePhase 200 planTwo)) = 2.
Proof.
  assert (H1 : NoDup (courseKey <$> realCourses planTwo)).
  { refine (bool_decide_unpack _ _). vm_compute. exact I. }
  split; [exact H1|].
  exact (proj2 (courseMap_lookup_unique sampleBox samplePhase 200 planTwo H1)).
Defined.


Lemma parsed_plan_well_formed_witness :
  parseStudentData samplePhase sampleLookup sampleParseFloat rawGraded = Some infoGraded
  /\ StudentInfo.currentPlan infoGraded = Some planGraded
  /\ StudentPlan.semesters planGraded !! 0 = Some (Some semesterGraded)
  /\ StudentSemester.number semesterGraded = 1%Z
  /\ StudentSemester.totalCredits semesterGraded
     = sumCredits (StudentSemester.courses semesterGraded).
Proof.
  split; [reflexivity|]. split; [reflexivity|]. split; [reflexivity|].
  destruct (parsed_plan_well_formed samplePhase sampleLookup sampleParseFloat
              rawGraded infoGraded planGraded 0 semesterGraded
              eq_refl eq_refl eq_refl) as (Hn & Hc & _).
  split; [exact Hn|exact Hc].
Defined.

Lemma parsed_semester_courses_witness :
  parseStudentData samplePhase sampleLookup sampleParseFloat rawGraded = Some infoGraded
  /\ StudentInfo.currentPlan infoGraded = Some planGraded
  /\ 1 < PHASE.TOTAL_SEMESTERS samplePhase
  /\ exists sem, StudentPlan.semesters planGraded !! 1 = Some (Some sem)
       /\ length (StudentSemester.courses sem) = 1.
Proof.
  assert (H3 : 1 < PHASE.TOTAL_SEMESTERS samplePhase) by (simpl; lia).
  split; [reflexivity|]. split; [reflexivity|]. split; [exact H3|].
  destruct (parsed_semester_courses samplePhase sampleLookup sampleParseFloat
              rawGraded infoGraded planGraded 1 eq_refl eq_refl H3)
    as (sem & Hsem & Hcs).
  exists sem. split; [exact Hsem|]. rewrite Hcs. reflexivity.
Defined.

Lemma planned_entry_status_witness :
  parseStudentData samplePhase sampleLookup sampleParseFloat rawGraded = Some infoGraded
  /\ StudentInfo.currentPlan infoGraded = Some planGraded
  /\ RawStudentData.plan rawGraded = Some [[("Y", None, None)]]
  /\ sampleLookup "Y" = Some courseY
  /\ exists sem,
       StudentPlan.semesters planGraded !! 1 = Some (Some sem)
       /\ Some studentY ∈ StudentSemester.courses sem.
Proof.
  split; [reflexivity|]. split; [reflexivity|]. split; [reflexivity|].
  split; [reflexivity|].
  apply (planned_entry_status samplePhase sampleLookup sampleParseFloat rawGraded
           infoGraded planGraded [[("Y", None, None)]] 0 0 [("Y", None, None)]
           "Y" None None courseY eq_refl eq_refl eq_refl eq_refl eq_refl eq_refl).
  - simpl. lia.
  - simpl. lia.
Defined.

Lemma parsed_plan_positions_witness :
  parseStudentData samplePhase sampleLookup sampleParseFloat rawGraded = Some infoGraded
  /\ StudentInfo.currentPlan infoGraded = Some planGraded
  /\ denseCourses planGraded.
Proof.
  split; [reflexivity|]. split; [reflexivity|].
  exact (proj1 (parsed_plan_positions sampleBox samplePhase 200 sampleLookup
                  sampleParseFloat rawGraded infoGraded planGraded eq_refl eq_refl)).
Defined.

Lemma parsed_current_courses_witness :
  parseStudentData samplePhase sampleLookup sampleParseFloat rawGraded = Some infoGraded
  /\ currentCourses infoGraded = [studentY].
Proof.
  split; [reflexivity|].
  rewrite (parsed_current_courses samplePhase sampleLookup sampleParseFloat
             rawGraded infoGraded eq_refl).
  reflexivity.
Defined.

Lemma professor_select_replaces_witness :
  findProfessor sampleSchedule (courseKey studentX) "p1"
  = Some {| ProfessorData.professorId := "p1";
            ProfessorData.schedule := "Segunda/Domingo/Quarta 09:40-11:20" |}
  /\ filter (fun o => ProfessorOverride.courseId o = courseKey studentX)
            (handleProfessorSelect sampleTimetable sampleSchedule
               [overrideZ; overrideX] studentX "p1")
     = [overrideX].
Proof.
  split; [reflexivity|].
  rewrite (proj1 (professor_select_replaces sampleTimetable sampleSchedule
                    [overrideZ; overrideX] studentX "p1" _ eq_refl)).
  reflexivity.
Defined.

Lemma professor_select_again_witness :
  findProfessor sampleSchedule (courseKey studentX) "p1"
  = Some {| ProfessorData.professorId := "p1";
            ProfessorData.schedule := "Segunda/Domingo/Quarta 09:40-11:20" |}
  /\ handleProfessorSelect sampleTimetable sampleSchedule
       (handleProfessorSelect sampleTimetable sampleSchedule [overrideZ] studentX "p7")
       studentX "p1"
     = handleProfessorSelect sampleTimetable sampleSchedule [overrideZ] studentX "p1".
Proof.
  split; [reflexivity|].
  exact (professor_select_again sampleTimetable sampleSchedule [overrideZ] studentX
           "p7" "p1" _ eq_refl).
Defined.

Lemma grid_holds_current_courses_witness :
  cell (courseSchedule sampleTimetable sampleSchedule
          (currentCourses (infoOf planTwo)) []) "09:40" 1 = Some studentY
  /\ StudentCourse.status studentY = IN_PROGRESS.
Proof.
  assert (H1 : cell (courseSchedule sampleTimetable sampleSchedule
                       (currentCourses (infoOf planTwo)) []) "09:40" 1
               = Some studentY) by (vm_compute; reflexivity).
  split; [exact H1|].
  exact (proj1 (proj2 (grid_holds_current_courses sampleTimetable sampleSchedule
                         (infoOf planTwo) [] "09:40" 1 studentY H1))).
Defined.

Lemma unusable_override_hides_course_witness :
  findProfessor unannouncedSchedule (courseKey studentX) "p2"
  = Some {| ProfessorData.professorId := "p2"; ProfessorData.schedule := "TBA" |}
  /\ Forall (fun e => findIndex sampleTimetable (ScheduleEntry.startTime e) = None)
            (parseSchedule sampleTimetable "TBA")
  /\ forall slotId day c,
       cell (courseSchedule sampleTimetable unannouncedSchedule
               (currentCourses (infoOf planTwo))
               (handleProfessorSelect sampleTimetable unannouncedSchedule []
                  studentX "p2")) slotId day = Some c ->
       courseKey c <> courseKey studentX.
Proof.
  assert (H2 : Forall (fun e => findIndex sampleTimetable (ScheduleEntry.startTime e)
                               = None)
                 (parseSchedule sampleTimetable "TBA")) by (vm_compute; constructor).
  split; [reflexivity|]. split; [exact H2|].
  exact (unusable_override_hides_course sampleTimetable unannouncedSchedule
           (infoOf planTwo) [] studentX "p2" _ eq_refl H2).
Defined.

Lemma foreign_override_ignored_witness :
  (forall c, c ∈ currentCourses (infoOf planTwo) ->
     courseKey c <> ProfessorOverride.courseId overrideZ)
  /\ courseSchedule sampleTimetable sampleSchedule (currentCourses (infoOf planTwo))
       ([overrideX] ++ overrideZ :: [])
     = courseSchedule sampleTimetable sampleSchedule (currentCourses (infoOf planTwo))
         ([overrideX] ++ []).
Proof.
  assert (H1 : forall c, c ∈ currentCourses (infoOf planTwo) ->
                 courseKey c <> ProfessorOverride.courseId overrideZ).
  { intros c Hc. change (c ∈ [studentX; studentY]) in Hc.
    apply elem_of_cons in Hc as [->|Hc]; [discriminate|].
    apply elem_of_cons in Hc as [->|Hc]; [discriminate|].
    by apply elem_of_nil in Hc. }
  split; [exact H1|].
  exact (foreign_override_ignored sampleTimetable sampleSchedule (infoOf planTwo)
           [overrideX] [] overrideZ H1).
Defined.

Lemma getDegreeName_shown_witness :
  "208" <> "" /\ getDegreeName samplePrograms "208" <> "".
Proof.
  assert (H1 : "208" <> "") by discriminate.
  split; [exact H1|].
  exact (proj1 (getDegreeName_shown samplePrograms "208" H1)).
Defined.

Lemma empty_plan_only_ghosts_witness :
  Forall (fun sem => StudentSemester.courses sem = []) (planSemesters registrationPlan)
  /\ length (PositionsState.positions
               (calculateStudentPositions sampleBox samplePhase 200 registrationPlan))
     = 4.
Proof.
  assert (H1 : Forall (fun sem => StudentSemester.courses sem = [])
                 (planSemesters registrationPlan)).
  { repeat constructor. }
  split; [exact H1|].
  rewrite (proj1 (proj2 (empty_plan_only_ghosts sampleBox samplePhase 200
                           registrationPlan H1))).
  reflexivity.
Defined.

(** The colours cycle through the palette. *)
Example colors_cycle :
  let colorOf := getCourseColor ["red"; "blue"] [studentX; studentY; studentX] in
  colorOf "X" = "red" /\ colorOf "Y" = "blue"
  /\ colorOf "Z" = "border-gray-300 bg-gray-50".
Proof. vm_compute. repeat split. Qed.
